(** * TodoList: the task collections and their SQLite store

    A shallow embedding of the task logic of the to-do list application:
    the two process-wide vectors [tasks] and [finished_tasks], the table
    [tasks] of the file todo_list.db, and the functions that keep them in
    step ([add_task], [load_tasks_from_database], [update_tasks_in_database],
    [delete_tasks], [get_finished_tasks], [clear_finished_tasks],
    [create_database_and_table]) together with the checkbox and button
    handlers of the main loop.

    Module [Dx12] follows src/main.cpp (Direct3D12 front end).  Module [Glfw]
    follows the GLFW/OpenGL front end, whose tasks carry [time_added], whose
    [add_task] also stores the time, and whose [delete_tasks] walks the
    vector with an iterator.

    SQLite is a library the program calls; it is modelled by its effect on
    the table: a connection opens or not, a statement over the table prepares
    exactly when the table exists, a SELECT runs to its end, and the rows
    are kept in rowid order.  A statement that writes (INSERT, UPDATE,
    DELETE, CREATE TABLE) is carried out at its step when the file can be
    written; on a file that opens but can only be read the step fails with
    SQLITE_READONLY and the file stays as it was.  Whether a file can be
    written is a property of the file: failures that come and go within one
    session (a lock held by another process, a disk that fills up) are not
    described.  The INSERT statement reaches SQLite as
    text, so the string literal in it is read the way SQLite reads it; SQL
    text of any other shape is left to an abstract engine [sql_other].
    Every std::string of the program is built from a NUL-terminated buffer
    (the input field, sqlite3_column_text), so [string] stands for such
    text. *)

From Stdlib Require Import ZArith Ascii DecimalString DecimalPos DecimalZ.
From stdpp Require Import base list strings.
From Equations Require Import Equations.
From Equations.Prop Require Logic.

(** ** The part of SQLite the program relies on *)

Module Sqlite.

(** Result codes, of which the program tests SQLITE_OK, SQLITE_ROW and
    SQLITE_DONE. *)
Inductive rc : Set :=
| SQLITE_OK
| SQLITE_ERROR
| SQLITE_READONLY
| SQLITE_CANTOPEN
| SQLITE_ROW
| SQLITE_DONE.

(** [sqlite3_column_int]: the low 32 bits of the stored 64-bit integer,
    read as a signed int. *)
Definition column_int (v : Z) : Z := ((v + 2 ^ 31) mod 2 ^ 32 - 2 ^ 31)%Z.

(** Conversion of an int to bool (static_cast<bool>). *)
Definition to_bool (v : Z) : bool := negb (v =? 0)%Z.

(** [strip_prefix p s]: what follows [p] in [s], when [s] starts with [p]. *)
Fixpoint strip_prefix (p s : string) : option string :=
  match p, s with
  | EmptyString, _ => Some s
  | String a p', String b s' =>
      if Ascii.eqb a b then strip_prefix p' s' else None
  | String _ _, EmptyString => None
  end.

(** The tokenizer on a single-quoted string literal, entered after the
    opening quote: two quotes in a row stand for one quote character, a
    lone quote closes the literal.  The result is the text of the literal
    and the input after the closing quote; [None] when the input ends
    inside the literal. *)
Fixpoint scan_literal (s : string) : option (string * string) :=
  match s with
  | EmptyString => None
  | String c s' =>
      if Ascii.eqb c "'" then
        match s' with
        | String d s'' =>
            if Ascii.eqb d "'" then
              match scan_literal s'' with
              | Some (text, after) => Some (String "'" text, after)
              | None => None
              end
            else Some (EmptyString, s')
        | EmptyString => Some (EmptyString, s')
        end
      else
        match scan_literal s' with
        | Some (text, after) => Some (String c text, after)
        | None => None
        end
  end.

(** A text without the quote character. *)
Fixpoint quote_free (s : string) : bool :=
  match s with
  | EmptyString => true
  | String c s' => negb (Ascii.eqb c "'") && quote_free s'
  end.

(** std::to_string on an integer: its decimal digits, after a minus sign
    when it is negative. *)
Definition to_string (z : Z) : string := NilZero.string_of_int (Z.to_int z).

(** The characters of a signed integer literal. *)
Definition is_number_char (c : ascii) : bool :=
  Ascii.eqb c "-" ||
  (Nat.leb 48 (nat_of_ascii c) && Nat.leb (nat_of_ascii c) 57).

(** The longest run of such characters at the head of a text, and what
    follows it. *)
Fixpoint span_number (s : string) : string * string :=
  match s with
  | EmptyString => (EmptyString, EmptyString)
  | String c s' =>
      if is_number_char c then
        let '(num, rest) := span_number s' in (String c num, rest)
      else (EmptyString, s)
  end.

(** A text made of such characters only. *)
Fixpoint all_number_chars (s : string) : bool :=
  match s with
  | EmptyString => true
  | String c s' => is_number_char c && all_number_chars s'
  end.

(** A signed integer literal read as a 64-bit integer; larger literals are
    not integers to SQLite. *)
Definition read_integer (s : string) : option Z :=
  match NilZero.int_of_string s with
  | Some d =>
      let z := Z.of_int d in
      if ((- 2 ^ 63 <? z) && (z <? 2 ^ 63))%Z then Some z else None
  | None => None
  end.

End Sqlite.

(** ** The Direct3D12 front end (src/main.cpp) *)

Module Dx12.
Import Sqlite.

(** struct Task *)
Record Task : Set := mkTask {
  name : string;
  is_finished : bool
}.

(** A row of CREATE TABLE tasks (task_name TEXT NOT NULL,
    task_finished INTEGER NOT NULL). *)
Record Row : Set := mkRow {
  task_name : string;
  task_finished : Z
}.

(** The file todo_list.db: whether sqlite3_open succeeds on it, whether it
    can be written (sqlite3_open also succeeds on a file the process may
    only read), and the rows of its table [tasks] in rowid order ([None]:
    no such table). *)
Record Store : Set := mkStore {
  can_open : bool;
  writable : bool;
  table : option (list Row)
}.

(** The two global vectors and the store. *)
Record State : Set := mkState {
  tasks : list Task;
  finished_tasks : list Task;
  db : Store
}.

Definition sqlite3_open (st : Store) : rc :=
  if can_open st then SQLITE_OK else SQLITE_CANTOPEN.

(** Preparing a SELECT, UPDATE or DELETE over [tasks] fails when the table
    does not exist. *)
Definition sqlite3_prepare_v2 (st : Store) : rc :=
  match table st with
  | Some _ => SQLITE_OK
  | None => SQLITE_ERROR
  end.

(** The rows of the table, none when there is no table. *)
Definition stored_rows (st : Store) : list Row :=
  match table st with
  | Some rows => rows
  | None => []
  end.

Definition with_table (st : Store) (rows : list Row) : Store :=
  {| can_open := can_open st; writable := writable st; table := Some rows |}.

(** [sqlite3_step] on a prepared statement that writes, [rows] being the
    table the statement makes: on a file that can be written the table
    becomes [rows] and the result is SQLITE_DONE; on a read-only file the
    result is SQLITE_READONLY and the file is as it was. *)
Definition sqlite3_step (st : Store) (rows : list Row) : rc * Store :=
  if writable st then (SQLITE_DONE, with_table st rows)
  else (SQLITE_READONLY, st).

(** Preparing CREATE TABLE IF NOT EXISTS: the statement names no table that
    has to exist. *)
Definition sqlite3_prepare_create (st : Store) : rc := SQLITE_OK.

(** The step of CREATE TABLE IF NOT EXISTS: nothing to do when the table is
    there, the empty table to write otherwise. *)
Definition sqlite3_step_create (st : Store) : rc * Store :=
  match table st with
  | Some _ => (SQLITE_DONE, st)
  | None => sqlite3_step st []
  end.

(** create_database_and_table: it returns when the file does not open or
    the statement does not prepare, and does not look at the result of the
    step. *)
Definition create_database_and_table (st : Store) : Store :=
  match sqlite3_open st with
  | SQLITE_OK =>
      match sqlite3_prepare_create st with
      | SQLITE_OK =>
          let '(_, st1) := sqlite3_step_create st in st1
      | _ => st
      end
  | _ => st
  end.

(** The text add_task sends to sqlite3_exec around the task name. *)
Definition insert_head : string :=
  "INSERT INTO tasks (task_name, task_finished) VALUES ('".
Definition insert_tail : string := "', 0);".

(** What is left of the INSERT statement after the string literal. *)
Definition insert_rest : string := ", 0);".

Section Exec.

(** SQL text other than the statements below is run by the rest of the SQL
    engine, which stays abstract. *)
Variable sql_other : string -> Store -> rc * Store.

(** [sqlite3_exec] on the texts the program can build: "COMMIT;" outside a
    transaction is an error without effect; the INSERT statement with a
    well-formed literal is prepared (an error when there is no table) and
    stepped: it appends one row, or fails on a file that cannot be written;
    a literal that never closes is a syntax error. *)
Definition sqlite3_exec (sql : string) (st : Store) : rc * Store :=
  if String.eqb sql "COMMIT;" then (SQLITE_ERROR, st)
  else
    match strip_prefix insert_head sql with
    | Some body =>
        match scan_literal body with
        | Some (text, after) =>
            if String.eqb after insert_rest then
              match table st with
              | Some rows =>
                  match sqlite3_step st (rows ++ [mkRow text 0]) with
                  | (SQLITE_DONE, st1) => (SQLITE_OK, st1)
                  | failed => failed
                  end
              | None => (SQLITE_ERROR, st)
              end
            else sql_other sql st
        | None => (SQLITE_ERROR, st)
        end
    | None => sql_other sql st
    end.

(** add_task: the task is pushed first; the result of the INSERT is only
    logged (if (result != SQLITE_OK) std::cerr << ...), so a failed INSERT
    leaves the task in the vector and no row in the table. *)
Definition add_task (task : string) (s : State) : State :=
  if negb (String.eqb task "") then
    let new_task := mkTask task false in
    let tasks' := tasks s ++ [new_task] in
    match sqlite3_open (db s) with
    | SQLITE_OK =>
        let sql := insert_head +:+ task +:+ insert_tail in
        let '(_, st1) := sqlite3_exec sql (db s) in
        let '(_, st2) := sqlite3_exec "COMMIT;" st1 in
        {| tasks := tasks'; finished_tasks := finished_tasks s; db := st2 |}
    | _ =>
        {| tasks := tasks'; finished_tasks := finished_tasks s; db := db s |}
    end
  else s.

End Exec.

(** SELECT task_name, task_finished FROM tasks WHERE task_finished = 0 *)
Definition select_active (rows : list Row) : list Row :=
  List.filter (fun r => (task_finished r =? 0)%Z) rows.

(** SELECT task_name, task_finished FROM tasks WHERE task_finished = 1 *)
Definition select_finished (rows : list Row) : list Row :=
  List.filter (fun r => (task_finished r =? 1)%Z) rows.

Definition load_tasks_from_database (s : State) : State :=
  match sqlite3_open (db s) with
  | SQLITE_OK =>
      match sqlite3_prepare_v2 (db s) with
      | SQLITE_OK =>
          {| tasks :=
               map (fun r => mkTask (task_name r)
                                    (to_bool (column_int (task_finished r))))
                   (select_active (stored_rows (db s)));
             finished_tasks := finished_tasks s;
             db := db s |}
      | _ => s
      end
  | _ => s
  end.

Definition get_finished_tasks (st : Store) : list Task :=
  match sqlite3_open st with
  | SQLITE_OK =>
      match sqlite3_prepare_v2 st with
      | SQLITE_OK =>
          map (fun r => mkTask (task_name r)
                               (column_int (task_finished r) =? 1)%Z)
              (select_finished (stored_rows st))
      | _ => []
      end
  | _ => []
  end.

(** UPDATE tasks SET task_finished = ? WHERE task_name = ? *)
Definition sql_update (flag : Z) (key : string) (rows : list Row) : list Row :=
  map (fun r => if String.eqb (task_name r) key
                then mkRow (task_name r) flag else r) rows.

(** The loop of update_tasks_in_database over the vector: the function
    returns at the first statement that does not prepare and at the first
    step that does not end in SQLITE_DONE. *)
Fixpoint update_loop (ts : list Task) (st : Store) : Store :=
  match ts with
  | [] => st
  | task :: rest =>
      match sqlite3_prepare_v2 st with
      | SQLITE_OK =>
          let flag := if is_finished task then 1%Z else 0%Z in
          match sqlite3_step st
                  (sql_update flag (name task) (stored_rows st)) with
          | (SQLITE_DONE, st1) => update_loop rest st1
          | (_, st1) => st1
          end
      | _ => st
      end
  end.

Definition update_tasks_in_database (s : State) : State :=
  match sqlite3_open (db s) with
  | SQLITE_OK =>
      {| tasks := tasks s; finished_tasks := finished_tasks s;
         db := update_loop (tasks s) (db s) |}
  | _ => s
  end.

(** DELETE FROM tasks WHERE task_finished = 1; a step that does not end in
    SQLITE_DONE is only logged. *)
Definition clear_finished_tasks (st : Store) : Store :=
  match sqlite3_open st with
  | SQLITE_OK =>
      match sqlite3_prepare_v2 st with
      | SQLITE_OK =>
          let '(_, st1) :=
            sqlite3_step st
              (List.filter (fun r => negb (task_finished r =? 1)%Z)
                           (stored_rows st)) in
          st1
      | _ => st
      end
  | _ => st
  end.

(** The loop of delete_tasks:
    for (int i = 0; i < tasks.size(); i++)
      if (tasks[i].is_finished == true) tasks.erase(tasks.begin() + i); *)
Equations? erase_loop (i : nat) (v : list Task) : list Task
  by wf (length v - i) lt :=
  erase_loop i v with Logic.inspect (v !! i) := {
    | exist _ (Some t) Hi =>
        if is_finished t then erase_loop (S i) (delete i v)
        else erase_loop (S i) v
    | exist _ None _ => v }.
Proof.
  all: pose proof (lookup_lt_Some _ _ _ Hi); rewrite ?length_delete by eauto; lia.
Qed.

Definition delete_tasks (s : State) : State :=
  let s1 := update_tasks_in_database s in
  let tasks' := erase_loop 0 (tasks s1) in
  {| tasks := tasks'; finished_tasks := get_finished_tasks (db s1); db := db s1 |}.

(** *** The main loop *)

(** ImGui::Checkbox(label, &v): when the box is pressed it flips [v] and
    returns true. *)
Definition Checkbox (pressed : bool) (v : bool) : bool * bool :=
  (pressed, if pressed then negb v else v).

(** tasks[i].is_finished = is_checked; *)
Definition toggle (i : nat) (is_checked : bool) (v : list Task) : list Task :=
  alter (fun t => mkTask (name t) is_checked) i v.

(** One turn of the loop of render_task_list. *)
Definition render_row (pressed : nat -> bool) (v : list Task) (i : nat)
  : list Task :=
  match v !! i with
  | Some t =>
      let '(changed, is_checked) := Checkbox (pressed i) (is_finished t) in
      if changed then toggle i is_checked v else v
  | None => v
  end.

Definition render_task_list (pressed : nat -> bool) (s : State) : State :=
  {| tasks := foldl (render_row pressed) (tasks s) (seq 0 (length (tasks s)));
     finished_tasks := finished_tasks s;
     db := db s |}.

(** finished_tasks.clear(); clear_finished_tasks(); *)
Definition clear_list (s : State) : State :=
  {| tasks := tasks s; finished_tasks := [];
     db := clear_finished_tasks (db s) |}.

(** What the user does during one frame: the checkboxes pressed, the
    buttons pressed, and the text of the input field.  The button that
    clears the finished list exists only while that list is shown. *)
Record Input : Type := mkInput {
  checkbox_pressed : nat -> bool;
  delete_pressed : bool;
  task_input : string;
  add_pressed : bool;
  clear_pressed : bool
}.

(** Before the loop: load_tasks_from_database();
    finished_tasks = {get_finished_tasks()}; *)
Definition startup (st : Store) : State :=
  let s := load_tasks_from_database
             {| tasks := []; finished_tasks := []; db := st |} in
  {| tasks := tasks s; finished_tasks := get_finished_tasks (db s);
     db := db s |}.

Section MainLoop.

Variable sql_other : string -> Store -> rc * Store.

(** One turn of the main loop. *)
Definition frame (s : State) (inp : Input) : State :=
  let s0 := {| tasks := tasks s; finished_tasks := finished_tasks s;
               db := create_database_and_table (db s) |} in
  let s1 := render_task_list (checkbox_pressed inp) s0 in
  let s2 := if delete_pressed inp then delete_tasks s1 else s1 in
  let s3 := if add_pressed inp
            then if (0 <? String.length (task_input inp))%nat
                 then add_task sql_other (task_input inp) s2 else s2
            else s2 in
  if clear_pressed inp then clear_list s3 else s3.

Definition run (s : State) (inps : list Input) : State :=
  foldl frame s inps.

End MainLoop.

(** An engine on which every statement outside the modelled ones fails;
    used to run the program on examples. *)
Definition sql_rejected (sql : string) (st : Store) : rc * Store :=
  (SQLITE_ERROR, st).

(** The integer update_tasks_in_database binds for a task. *)
Definition flag_of (t : Task) : Z := if is_finished t then 1%Z else 0%Z.

(** The rows after the UPDATE statements of the tasks [ts], in order. *)
Definition update_rows (ts : list Task) (rows : list Row) : list Row :=
  foldl (fun rows t => sql_update (flag_of t) (name t) rows) rows ts.

(** The finished collection shows what the store holds as finished. *)
Definition finished_in_step (s : State) : Prop :=
  finished_tasks s = get_finished_tasks (db s).

(** The added text, if any, has no quote character. *)
Definition well_quoted (inp : Input) : Prop :=
  add_pressed inp = true → quote_free (task_input inp) = true.

(** The states the program reaches: the one before the main loop, and the
    one after each frame whose added text has no quote character. *)
Inductive reachable (sql_other : string -> Store -> rc * Store)
  : State -> Prop :=
| reachable_startup (st : Store) : reachable sql_other (startup st)
| reachable_frame (s : State) (inp : Input) :
    reachable sql_other s → well_quoted inp →
    reachable sql_other (frame sql_other s inp).

(** [t] is held as finished: it is in the finished collection, which shows
    the store, and no active task bears its name. *)
Definition held_finished (t : Task) (s : State) : Prop :=
  finished_in_step s ∧ t ∈ finished_tasks s ∧
  Forall (fun a => name a ≠ name t) (tasks s).

(** A frame in which the finished list is not cleared and no task named
    like [t] is added. *)
Definition leaves_alone (t : Task) (inp : Input) : Prop :=
  clear_pressed inp = false ∧
  (add_pressed inp = true →
   task_input inp ≠ name t ∧ quote_free (task_input inp) = true).

(** Frames with a single action. *)
Definition press_checkbox (i : nat) : Input :=
  mkInput (fun j => Nat.eqb i j) false "" false false.
Definition press_delete : Input :=
  mkInput (fun _ => false) true "" false false.
Definition press_add (text : string) : Input :=
  mkInput (fun _ => false) false text true false.
Definition press_clear : Input :=
  mkInput (fun _ => false) false "" false true.

End Dx12.

(** ** The GLFW front end: struct Task with [time_added], the INSERT with
    the time, and the iterator loop of delete_tasks *)

Module Glfw.
Import Sqlite.

Record Task : Set := mkTask {
  name : string;
  is_finished : bool;
  time_added : Z
}.

(** A row of tasks (task_name TEXT, task_finished INTEGER, time_added TEXT);
    the text of [time_added] is the decimal integer add_task wrote, kept
    here as that integer. *)
Record Row : Set := mkRow {
  task_name : string;
  task_finished : Z;
  row_time_added : Z
}.

Record Store : Set := mkStore {
  can_open : bool;
  writable : bool;
  table : option (list Row)
}.

Record State : Set := mkState {
  tasks : list Task;
  finished_tasks : list Task;
  db : Store
}.

Definition sqlite3_open (st : Store) : rc :=
  if can_open st then SQLITE_OK else SQLITE_CANTOPEN.

Definition sqlite3_prepare_v2 (st : Store) : rc :=
  match table st with
  | Some _ => SQLITE_OK
  | None => SQLITE_ERROR
  end.

Definition stored_rows (st : Store) : list Row :=
  match table st with
  | Some rows => rows
  | None => []
  end.

Definition with_table (st : Store) (rows : list Row) : Store :=
  {| can_open := can_open st; writable := writable st; table := Some rows |}.

(** [sqlite3_step] on a prepared statement that writes, as in the other
    front end. *)
Definition sqlite3_step (st : Store) (rows : list Row) : rc * Store :=
  if writable st then (SQLITE_DONE, with_table st rows)
  else (SQLITE_READONLY, st).

(** The text add_task sends to sqlite3_exec around the task name and the
    time. *)
Definition insert_head : string :=
  "INSERT INTO tasks (task_name, task_finished, time_added) VALUES ('".
Definition insert_mid : string := "', 0, ".
Definition insert_end : string := ");".

(** What follows the string literal, up to the time. *)
Definition insert_flag : string := ", 0, ".

Section Exec.

Variable sql_other : string -> Store -> rc * Store.

(** [sqlite3_exec] on the texts the program can build, as in the other
    front end; the third value is an integer literal. *)
Definition sqlite3_exec (sql : string) (st : Store) : rc * Store :=
  if String.eqb sql "COMMIT;" then (SQLITE_ERROR, st)
  else
    match strip_prefix insert_head sql with
    | Some body =>
        match scan_literal body with
        | Some (text, after) =>
            match strip_prefix insert_flag after with
            | Some tail =>
                let '(num, rest) := span_number tail in
                match read_integer num with
                | Some z =>
                    if String.eqb rest insert_end then
                      match table st with
                      | Some rows =>
                          match sqlite3_step st (rows ++ [mkRow text 0 z]) with
                          | (SQLITE_DONE, st1) => (SQLITE_OK, st1)
                          | failed => failed
                          end
                      | None => (SQLITE_ERROR, st)
                      end
                    else sql_other sql st
                | None => sql_other sql st
                end
            | None => sql_other sql st
            end
        | None => (SQLITE_ERROR, st)
        end
    | None => sql_other sql st
    end.

(** [now] is what std::time(nullptr) returns. *)
Definition add_task (now : Z) (task : string) (s : State) : State :=
  if negb (String.eqb task "") then
    let new_task := mkTask task false now in
    let tasks' := tasks s ++ [new_task] in
    match sqlite3_open (db s) with
    | SQLITE_OK =>
        let sql := insert_head +:+ task +:+ insert_mid +:+
                   to_string (time_added new_task) +:+ insert_end in
        let '(_, st1) := sqlite3_exec sql (db s) in
        let '(_, st2) := sqlite3_exec "COMMIT;" st1 in
        {| tasks := tasks'; finished_tasks := finished_tasks s; db := st2 |}
    | _ =>
        {| tasks := tasks'; finished_tasks := finished_tasks s; db := db s |}
    end
  else s.

End Exec.

Definition sql_rejected (sql : string) (st : Store) : rc * Store :=
  (SQLITE_ERROR, st).

Definition select_active (rows : list Row) : list Row :=
  List.filter (fun r => (task_finished r =? 0)%Z) rows.

Definition select_finished (rows : list Row) : list Row :=
  List.filter (fun r => (task_finished r =? 1)%Z) rows.

Definition load_tasks_from_database (s : State) : State :=
  match sqlite3_open (db s) with
  | SQLITE_OK =>
      match sqlite3_prepare_v2 (db s) with
      | SQLITE_OK =>
          {| tasks :=
               map (fun r => mkTask (task_name r)
                                    (to_bool (column_int (task_finished r)))
                                    (column_int (row_time_added r)))
                   (select_active (stored_rows (db s)));
             finished_tasks := finished_tasks s;
             db := db s |}
      | _ => s
      end
  | _ => s
  end.

Definition get_finished_tasks (st : Store) : list Task :=
  match sqlite3_open st with
  | SQLITE_OK =>
      match sqlite3_prepare_v2 st with
      | SQLITE_OK =>
          map (fun r => mkTask (task_name r)
                               (column_int (task_finished r) =? 1)%Z
                               (column_int (row_time_added r)))
              (select_finished (stored_rows st))
      | _ => []
      end
  | _ => []
  end.

Definition sql_update (flag : Z) (key : string) (rows : list Row) : list Row :=
  map (fun r => if String.eqb (task_name r) key
                then mkRow (task_name r) flag (row_time_added r) else r) rows.

Fixpoint update_loop (ts : list Task) (st : Store) : Store :=
  match ts with
  | [] => st
  | task :: rest =>
      match sqlite3_prepare_v2 st with
      | SQLITE_OK =>
          let flag := if is_finished task then 1%Z else 0%Z in
          match sqlite3_step st
                  (sql_update flag (name task) (stored_rows st)) with
          | (SQLITE_DONE, st1) => update_loop rest st1
          | (_, st1) => st1
          end
      | _ => st
      end
  end.

Definition update_tasks_in_database (s : State) : State :=
  match sqlite3_open (db s) with
  | SQLITE_OK =>
      {| tasks := tasks s; finished_tasks := finished_tasks s;
         db := update_loop (tasks s) (db s) |}
  | _ => s
  end.

(** The loop of delete_tasks, [i] being the position of the iterator:
    while (it != tasks.end())
      if (it->is_finished) it = tasks.erase(it); else ++it; *)
Equations? erase_iter_loop (i : nat) (v : list Task) : list Task
  by wf (length v - i) lt :=
  erase_iter_loop i v with Logic.inspect (v !! i) := {
    | exist _ (Some t) Hi =>
        if is_finished t then erase_iter_loop i (delete i v)
        else erase_iter_loop (S i) v
    | exist _ None _ => v }.
Proof.
  all: pose proof (lookup_lt_Some _ _ _ Hi); rewrite ?length_delete by eauto; lia.
Qed.

Definition delete_tasks (s : State) : State :=
  let s1 := update_tasks_in_database s in
  let tasks' := erase_iter_loop 0 (tasks s1) in
  {| tasks := tasks'; finished_tasks := get_finished_tasks (db s1); db := db s1 |}.

(** tasks[i].is_finished = is_checked; in render_task_list *)
Definition toggle (i : nat) (is_checked : bool) (v : list Task) : list Task :=
  alter (fun t => mkTask (name t) is_checked (time_added t)) i v.

End Glfw.

(** ** The GLFW front end seen without [time_added] *)

Module Forget.

Definition task (t : Glfw.Task) : Dx12.Task :=
  Dx12.mkTask (Glfw.name t) (Glfw.is_finished t).

Definition row (r : Glfw.Row) : Dx12.Row :=
  Dx12.mkRow (Glfw.task_name r) (Glfw.task_finished r).

Definition store (st : Glfw.Store) : Dx12.Store :=
  {| Dx12.can_open := Glfw.can_open st;
     Dx12.writable := Glfw.writable st;
     Dx12.table := option_map (map row) (Glfw.table st) |}.

Definition state (g : Glfw.State) : Dx12.State :=
  {| Dx12.tasks := map task (Glfw.tasks g);
     Dx12.finished_tasks := map task (Glfw.finished_tasks g);
     Dx12.db := store (Glfw.db g) |}.

End Forget.

(** ** Stores and states used as examples *)

Module Scenario.
Import Dx12.

(** The store of the specification's scenario. *)
Definition milk_and_bill : Store :=
  {| can_open := true; writable := true;
     table := Some [mkRow "Buy milk" 0; mkRow "Pay bill" 1] |}.

(** The same file when it cannot be opened. *)
Definition milk_and_bill_locked : Store :=
  {| can_open := false; writable := true;
     table := Some [mkRow "Buy milk" 0; mkRow "Pay bill" 1] |}.

(** The same file when it can be read but not written. *)
Definition milk_and_bill_read_only : Store :=
  {| can_open := true; writable := false;
     table := Some [mkRow "Buy milk" 0; mkRow "Pay bill" 1] |}.

(** Two active tasks, one after the other. *)
Definition a_then_b : Store :=
  {| can_open := true; writable := true;
     table := Some [mkRow "a" 0; mkRow "b" 0] |}.

(** An empty table. *)
Definition empty_table : Store :=
  {| can_open := true; writable := true; table := Some [] |}.

(** A file without the table. *)
Definition no_table : Store :=
  {| can_open := true; writable := true; table := None |}.


(** A session that holds one task while the file cannot be opened. *)
Definition locked_session : State :=
  {| tasks := [mkTask "Buy milk" false];
     finished_tasks := [mkTask "Pay bill" true];
     db := milk_and_bill_locked |}.

(** A session that holds one task while the file has no table. *)
Definition session_without_table : State :=
  {| tasks := [mkTask "Buy milk" false]; finished_tasks := [];
     db := no_table |}.

(** The GLFW front end with two checked tasks. *)
Definition glfw_a_then_b : Glfw.State :=
  {| Glfw.tasks := [Glfw.mkTask "a" true 1700000000;
                    Glfw.mkTask "b" true 1700000060];
     Glfw.finished_tasks := [];
     Glfw.db := {| Glfw.can_open := true; Glfw.writable := true;
                   Glfw.table := Some [Glfw.mkRow "a" 0 1700000000;
                                       Glfw.mkRow "b" 0 1700000060] |} |}.

(** The scenario's session after a task named like the finished one is
    added. *)
Definition bill_added_again : State :=
  frame sql_rejected (startup milk_and_bill) (press_add "Pay bill").

Definition glfw_locked_session : Glfw.State :=
  {| Glfw.tasks := [Glfw.mkTask "Buy milk" false 1700000000];
     Glfw.finished_tasks := [];
     Glfw.db := {| Glfw.can_open := false; Glfw.writable := true;
                   Glfw.table := None |} |}.

(** The GLFW front end on a file that can be read but not written. *)
Definition glfw_read_only : Glfw.Store :=
  {| Glfw.can_open := true; Glfw.writable := false;
     Glfw.table := Some [Glfw.mkRow "a" 1 1700000000;
                         Glfw.mkRow "b" 0 1700000060] |}.


End Scenario.

(** ** More of src/main.cpp: what the loops and statements come to *)

Module Dx12More.
Import Sqlite Dx12.

(** The last task of the vector that bears the name [key]. *)
Definition last_named (key : string) (ts : list Task) : option Task :=
  foldl (fun found t => if String.eqb (name t) key then Some t else found)
        None ts.

(** A row after the updates of the tasks [ts]: the flag of the last task of
    its name, if there is one. *)
Definition final_row (ts : list Task) (r : Row) : Row :=
  match last_named (task_name r) ts with
  | Some t => mkRow (task_name r) (flag_of t)
  | None => r
  end.

(** The tasks that are not checked, in order. *)
Definition unchecked (v : list Task) : list Task :=
  List.filter (fun t => negb (is_finished t)) v.

(** The number of checked tasks. *)
Definition checked_count (v : list Task) : nat :=
  length (List.filter is_finished v).

(** No checked task stands right after another checked task. *)
Fixpoint checked_apart (v : list Task) : bool :=
  match v with
  | t :: (u :: _) as rest =>
      negb (is_finished t && is_finished u) && checked_apart rest
  | _ => true
  end.

(** What the index loop of delete_tasks makes of the part of the vector it
    has not visited yet: after an erase the next task is stepped over. *)
Fixpoint erase_skip (v : list Task) : list Task :=
  match v with
  | [] => []
  | t :: rest =>
      if is_finished t then
        match rest with
        | [] => []
        | u :: rest' => u :: erase_skip rest'
        end
      else t :: erase_skip rest
  end.

(** Every pressed checkbox flips the flag of its row. *)
Definition flip_pressed (pressed : nat -> bool) (v : list Task) : list Task :=
  imap (fun i t => mkTask (name t) (xorb (pressed i) (is_finished t))) v.

(** Every task of the vector has a name. *)
Definition named (v : list Task) : Prop :=
  Forall (fun t => name t ≠ EmptyString) v.

(** A frame in which the user does nothing. *)
Definition idle : Input := mkInput (fun _ => false) false "" false false.

(** Pressing the delete button [n] times in a row. *)
Definition press_delete_times (n : nat) (s : State) : State :=
  Nat.iter n delete_tasks s.

(** The active task a row of the table is loaded as. *)
Definition loaded (r : Row) : Task :=
  mkTask (task_name r) (to_bool (column_int (task_finished r))).

End Dx12More.

(** ** More of the GLFW front end: removeQuotes, the schema, the clearing
    of the finished rows and the checkboxes *)

Module GlfwMain.
Import Sqlite Glfw.

(** The double quote character. *)
Definition dquote : ascii := "034"%char.

Definition front (s : string) : option ascii := String.get 0 s.

Definition back (s : string) : option ascii :=
  String.get (String.length s - 1) s.

Definition is_dquote (c : option ascii) : bool :=
  match c with
  | Some a => Ascii.eqb a dquote
  | None => false
  end.

(** std::string removeQuotes(const std::string &input) *)
Definition removeQuotes (input : string) : string :=
  if Nat.leb 2 (String.length input)
     && is_dquote (front input) && is_dquote (back input)
  then String.substring 1 (String.length input - 2) input
  else input.

(** A text between two double quotes. *)
Definition quoted (s : string) : string :=
  String dquote (s +:+ String dquote EmptyString).

(** Preparing CREATE TABLE IF NOT EXISTS: the statement names no table that
    has to exist. *)
Definition sqlite3_prepare_create (st : Store) : rc := SQLITE_OK.

(** The step of CREATE TABLE IF NOT EXISTS: nothing to do when the table is
    there, the empty table to write otherwise. *)
Definition sqlite3_step_create (st : Store) : rc * Store :=
  match table st with
  | Some _ => (SQLITE_DONE, st)
  | None => sqlite3_step st []
  end.

(** create_database_and_table: it returns when the file does not open or
    the statement does not prepare, and does not look at the result of the
    step. *)
Definition create_database_and_table (st : Store) : Store :=
  match sqlite3_open st with
  | SQLITE_OK =>
      match sqlite3_prepare_create st with
      | SQLITE_OK =>
          let '(_, st1) := sqlite3_step_create st in st1
      | _ => st
      end
  | _ => st
  end.

(** DELETE FROM tasks WHERE task_finished = 1; a step that does not end in
    SQLITE_DONE is only logged. *)
Definition clear_finished_tasks (st : Store) : Store :=
  match sqlite3_open st with
  | SQLITE_OK =>
      match sqlite3_prepare_v2 st with
      | SQLITE_OK =>
          let '(_, st1) :=
            sqlite3_step st
              (List.filter (fun r => negb (task_finished r =? 1)%Z)
                           (stored_rows st)) in
          st1
      | _ => st
      end
  | _ => st
  end.

(** One turn of the loop of render_task_list. *)
Definition render_row (pressed : nat -> bool) (v : list Task) (i : nat)
  : list Task :=
  match v !! i with
  | Some t =>
      let '(changed, is_checked) :=
        Dx12.Checkbox (pressed i) (is_finished t) in
      if changed then toggle i is_checked v else v
  | None => v
  end.

Definition render_task_list (pressed : nat -> bool) (s : State) : State :=
  {| tasks := foldl (render_row pressed) (tasks s) (seq 0 (length (tasks s)));
     finished_tasks := finished_tasks s;
     db := db s |}.

(** finished_tasks.clear(); clear_finished_tasks(); *)
Definition clear_list (s : State) : State :=
  {| tasks := tasks s; finished_tasks := [];
     db := clear_finished_tasks (db s) |}.

(** The tasks that are not checked, in order. *)
Definition unchecked (v : list Task) : list Task :=
  List.filter (fun t => negb (is_finished t)) v.

(** Every pressed checkbox flips the flag of its row. *)
Definition flip_pressed (pressed : nat -> bool) (v : list Task) : list Task :=
  imap (fun i t => mkTask (name t) (xorb (pressed i) (is_finished t))
                          (time_added t)) v.

(** A task with its box cleared. *)
Definition uncheck (t : Task) : Task :=
  mkTask (name t) false (time_added t).

(** The integer update_tasks_in_database binds for a task. *)
Definition flag_of (t : Task) : Z := if is_finished t then 1%Z else 0%Z.

(** The rows after the UPDATE statements of the tasks [ts], in order. *)
Definition update_rows (ts : list Task) (rows : list Row) : list Row :=
  foldl (fun rows t => sql_update (flag_of t) (name t) rows) rows ts.

(** The active task a row of the table is loaded as. *)
Definition loaded (r : Row) : Task :=
  mkTask (task_name r) (to_bool (column_int (task_finished r)))
         (column_int (row_time_added r)).

(** The last task of the vector that bears the name [key]. *)
Definition last_named (key : string) (ts : list Task) : option Task :=
  foldl (fun found t => if String.eqb (name t) key then Some t else found)
        None ts.

(** A row after the updates of the tasks [ts]: the flag of the last task of
    its name, if there is one. *)
Definition final_row (ts : list Task) (r : Row) : Row :=
  match last_named (task_name r) ts with
  | Some t => mkRow (task_name r) (flag_of t) (row_time_added r)
  | None => r
  end.

End GlfwMain.

(** ** The GLFW front end with the warning dialog: the schema is set up once,
    before the loop, and a store that does not open raises the dialog *)

Module GlfwWarn.
Import Sqlite Glfw GlfwMain.

(** void create_database_and_table(bool &should_show_warning_dialog): the
    flag is raised when the file does not open; the function returns when
    the statement does not prepare and does not look at the result of the
    step. *)
Definition create_database_and_table (st : Store)
    (should_show_warning_dialog : bool) : Store * bool :=
  match sqlite3_open st with
  | SQLITE_OK =>
      match sqlite3_prepare_create st with
      | SQLITE_OK =>
          let '(_, st1) := sqlite3_step_create st in
          (st1, should_show_warning_dialog)
      | _ => (st, should_show_warning_dialog)
      end
  | _ => (st, true)
  end.

(** The vectors and the store, with the two flags of main. *)
Record Session : Set := mkSession {
  state : State;
  show_finished_list : bool;
  should_show_warning_dialog : bool
}.

(** What the user does during one frame, and the time add_task reads. *)
Record Input : Type := mkInput {
  checkbox_pressed : nat -> bool;
  delete_pressed : bool;
  task_input : string;
  add_pressed : bool;
  now : Z;
  show_pressed : bool;
  clear_pressed : bool;
  ok_pressed : bool
}.

(** Before the loop. *)
Definition startup (st : Store) : Session :=
  let '(st1, warning) := create_database_and_table st false in
  let s := load_tasks_from_database
             {| tasks := []; finished_tasks := []; db := st1 |} in
  {| state := {| tasks := tasks s;
                 finished_tasks := get_finished_tasks (db s);
                 db := db s |};
     show_finished_list := false;
     should_show_warning_dialog := warning |}.

Section MainLoop.

Variable sql_other : string -> Store -> rc * Store.

(** One turn of the main loop. *)
Definition frame (w : Session) (inp : Input) : Session :=
  let s1 := render_task_list (checkbox_pressed inp) (state w) in
  let s2 := if delete_pressed inp then delete_tasks s1 else s1 in
  let s3 := if add_pressed inp
            then if (0 <? String.length (task_input inp))%nat
                 then add_task sql_other (now inp) (task_input inp) s2 else s2
            else s2 in
  let show := if show_pressed inp then negb (show_finished_list w)
              else show_finished_list w in
  let s4 := if show
            then if clear_pressed inp then clear_list s3 else s3
            else s3 in
  let warning := if should_show_warning_dialog w
                 then if ok_pressed inp then false else true
                 else false in
  {| state := s4; show_finished_list := show;
     should_show_warning_dialog := warning |}.

Definition run (w : Session) (inps : list Input) : Session :=
  foldl frame w inps.

End MainLoop.

End GlfwWarn.


(** * Properties of the SQL texts *)

Module SqliteFacts.
Import Sqlite.

Lemma strip_prefix_app (p s : string) : strip_prefix p (p +:+ s) = Some s.
Proof.
  induction p as [|a p IH]; simpl; [reflexivity|].
  rewrite Ascii.eqb_refl. exact IH.
Qed.

(** A text without quote, its closing quote and a comma: the literal is the
    text. *)
Lemma scan_literal_comma (t r : string) :
  quote_free t = true →
  scan_literal (t +:+ String "'" (String "," r)) = Some (t, String "," r).
Proof.
  induction t as [|c t IH]; simpl; intros Hq; [reflexivity|].
  apply andb_true_iff in Hq as [Hc Ht].
  apply negb_true_iff in Hc. rewrite Hc, (IH Ht). reflexivity.
Qed.

Lemma span_number_paren (n r : string) :
  all_number_chars n = true →
  span_number (n +:+ String ")" r) = (n, String ")" r).
Proof.
  induction n as [|c n IH]; simpl; intros Hn; [reflexivity|].
  apply andb_true_iff in Hn as [Hc Hn]. by rewrite Hc, (IH Hn).
Qed.

Lemma all_number_chars_uint (d : Decimal.uint) :
  all_number_chars (NilEmpty.string_of_uint d) = true.
Proof. induction d; simpl; [reflexivity|exact IHd..]. Qed.

Lemma all_number_chars_to_string (z : Z) :
  all_number_chars (to_string z) = true.
Proof.
  unfold to_string.
  destruct (Z.to_int z) as [d|d]; simpl;
    destruct d; try reflexivity; apply all_number_chars_uint.
Qed.

Lemma read_integer_to_string (z : Z) :
  (- 2 ^ 63 < z < 2 ^ 63)%Z → read_integer (to_string z) = Some z.
Proof.
  intros Hz. unfold read_integer, to_string.
  rewrite NilZero.isi.
  - rewrite DecimalZ.of_to.
    destruct (Z.ltb_spec (- 2 ^ 63) z); [|lia].
    destruct (Z.ltb_spec z (2 ^ 63)); [done|lia].
  - destruct z; simpl; try discriminate.
    intros [= H]. by apply Unsigned.to_uint_nonnil in H.
  - destruct z; simpl; try discriminate.
    intros [= H]. by apply Unsigned.to_uint_nonnil in H.
Qed.

End SqliteFacts.

(** * Properties of the Direct3D12 front end *)

Module Dx12Facts.
Import Sqlite SqliteFacts Dx12.

(** ** The SQL text of add_task *)

Lemma scan_literal_quote_free (t : string) :
  quote_free t = true →
  scan_literal (t +:+ insert_tail) = Some (t, insert_rest).
Proof. apply scan_literal_comma. Qed.

Lemma insert_is_not_commit (t : string) :
  String.eqb (insert_head +:+ t +:+ insert_tail) "COMMIT;" = false.
Proof. reflexivity. Qed.

Section Facts.

Variable sql_other : string -> Store -> rc * Store.

Lemma sqlite3_exec_commit (st : Store) :
  sqlite3_exec sql_other "COMMIT;" st = (SQLITE_ERROR, st).
Proof. reflexivity. Qed.

Lemma sqlite3_exec_insert (t : string) (st : Store) :
  quote_free t = true →
  sqlite3_exec sql_other (insert_head +:+ t +:+ insert_tail) st =
  match table st with
  | Some rows =>
      if writable st then (SQLITE_OK, with_table st (rows ++ [mkRow t 0]))
      else (SQLITE_READONLY, st)
  | None => (SQLITE_ERROR, st)
  end.
Proof.
  intros Hq. unfold sqlite3_exec, sqlite3_step.
  rewrite insert_is_not_commit, strip_prefix_app, (scan_literal_quote_free _ Hq).
  simpl. destruct (table st); [|reflexivity]. by destruct (writable st).
Qed.

Lemma add_task_tasks (task : string) (s : State) :
  task ≠ "" →
  tasks (add_task sql_other task s) = tasks s ++ [mkTask task false] ∧
  finished_tasks (add_task sql_other task s) = finished_tasks s.
Proof.
  intros Hne. unfold add_task.
  destruct (String.eqb_spec task "") as [->|_]; [done|]. simpl.
  unfold sqlite3_open. destruct (can_open (db s)); [|done].
  destruct (sqlite3_exec sql_other _ (db s)) as [r1 st1].
  destruct (sqlite3_exec sql_other "COMMIT;" st1) as [r2 st2]. done.
Qed.

Lemma add_task_db_closed (task : string) (s : State) :
  can_open (db s) = false → db (add_task sql_other task s) = db s.
Proof.
  intros Hc. unfold add_task, sqlite3_open. rewrite Hc.
  destruct (negb _); reflexivity.
Qed.

Lemma add_task_db_open (task : string) (s : State) :
  task ≠ "" → quote_free task = true → can_open (db s) = true →
  db (add_task sql_other task s) =
  match table (db s) with
  | Some rows =>
      if writable (db s) then with_table (db s) (rows ++ [mkRow task 0])
      else db s
  | None => db s
  end.
Proof.
  intros Hne Hq Hc. unfold add_task, sqlite3_open. rewrite Hc.
  destruct (String.eqb_spec task "") as [->|_]; [done|]. simpl.
  rewrite (sqlite3_exec_insert _ _ Hq).
  destruct (table (db s)); [|reflexivity].
  destruct (writable (db s)); reflexivity.
Qed.


End Facts.

(** ** The loop of delete_tasks *)

Lemma erase_loop_Some (i : nat) (v : list Task) (t : Task) :
  v !! i = Some t →
  erase_loop i v =
  if is_finished t then erase_loop (S i) (delete i v) else erase_loop (S i) v.
Proof.
  intros Hi. funelim (erase_loop i v); [|congruence].
  assert (t0 = t) as -> by congruence. reflexivity.
Qed.

Lemma erase_loop_None (i : nat) (v : list Task) :
  v !! i = None → erase_loop i v = v.
Proof. intros Hi. funelim (erase_loop i v); [congruence|reflexivity]. Qed.

Lemma erase_loop_sublist (i : nat) (v : list Task) :
  erase_loop i v `sublist_of` v.
Proof.
  funelim (erase_loop i v); [|reflexivity].
  destruct (is_finished t); [|assumption].
  etrans; [eassumption|]. apply sublist_delete.
Qed.

(** ** The store *)

Lemma with_table_same (st : Store) (rows : list Row) :
  table st = Some rows → with_table st rows = st.
Proof. destruct st as [c w tb]; simpl; intros ->; reflexivity. Qed.

Lemma sqlite3_open_OK (st : Store) :
  sqlite3_open st = SQLITE_OK ↔ can_open st = true.
Proof. unfold sqlite3_open. by destruct (can_open st). Qed.

Lemma sqlite3_prepare_v2_OK (st : Store) :
  sqlite3_prepare_v2 st = SQLITE_OK ↔ table st = Some (stored_rows st).
Proof.
  unfold sqlite3_prepare_v2, stored_rows. by destruct (table st).
Qed.

Lemma update_loop_rows (ts : list Task) (st : Store) (rows : list Row) :
  writable st = true → table st = Some rows →
  update_loop ts st = with_table st (update_rows ts rows).
Proof.
  revert st rows. induction ts as [|t ts IH]; intros st rows Hw Ht; simpl.
  - symmetry. by apply with_table_same.
  - unfold sqlite3_prepare_v2, sqlite3_step, stored_rows. rewrite Ht, Hw.
    erewrite IH by (exact Hw || reflexivity). reflexivity.
Qed.

Lemma update_loop_no_table (ts : list Task) (st : Store) :
  table st = None → update_loop ts st = st.
Proof.
  intros Ht. destruct ts; simpl; [done|].
  unfold sqlite3_prepare_v2. by rewrite Ht.
Qed.

(** On a file that cannot be written the first UPDATE fails at its step
    and the function returns. *)
Lemma update_loop_read_only (ts : list Task) (st : Store) :
  writable st = false → update_loop ts st = st.
Proof.
  intros Hw. destruct ts; simpl; [done|].
  unfold sqlite3_step. rewrite Hw. by destruct (sqlite3_prepare_v2 st).
Qed.

(** The loop either runs through the whole vector or changes nothing. *)
Lemma update_loop_cases (ts : list Task) (st : Store) :
  update_loop ts st = st ∨
  (writable st = true ∧
   update_loop ts st = with_table st (update_rows ts (stored_rows st)) ∧
   table st = Some (stored_rows st)).
Proof.
  destruct (writable st) eqn:Hw; [|left; by apply update_loop_read_only].
  destruct (table st) as [rows|] eqn:Ht;
    [|left; by apply update_loop_no_table].
  right. unfold stored_rows. rewrite Ht.
  split_and!; [done| |done]. by apply update_loop_rows.
Qed.

Lemma update_loop_can_open (ts : list Task) (st : Store) :
  can_open (update_loop ts st) = can_open st.
Proof.
  destruct (update_loop_cases ts st) as [->|(_ & -> & _)]; done.
Qed.

Lemma update_loop_writable (ts : list Task) (st : Store) :
  writable (update_loop ts st) = writable st.
Proof.
  destruct (update_loop_cases ts st) as [->|(_ & -> & _)]; done.
Qed.

Lemma update_rows_app (ts1 ts2 : list Task) (rows : list Row) :
  update_rows (ts1 ++ ts2) rows = update_rows ts2 (update_rows ts1 rows).
Proof. apply foldl_app. Qed.

Lemma sql_update_length (flag : Z) (key : string) (rows : list Row) :
  length (sql_update flag key rows) = length rows.
Proof. apply length_map. Qed.

Lemma sql_update_lookup (flag : Z) (key : string) (rows : list Row)
    (i : nat) (r : Row) :
  rows !! i = Some r →
  sql_update flag key rows !! i =
  Some (if String.eqb (task_name r) key then mkRow (task_name r) flag else r).
Proof. intros Hi. unfold sql_update. by rewrite list_lookup_fmap, Hi. Qed.

Lemma sql_update_no_match (flag : Z) (key : string) (rows : list Row) :
  (∀ r, r ∈ rows → task_name r ≠ key) → sql_update flag key rows = rows.
Proof.
  intros Hno. unfold sql_update.
  induction rows as [|r rows IH]; simpl; [reflexivity|].
  destruct (String.eqb_spec (task_name r) key) as [He|_].
  - exfalso. apply (Hno r); [left|exact He].
  - f_equal. apply IH. intros r' Hr'. apply Hno. by right.
Qed.

Lemma sql_update_elem (flag : Z) (key : string) (rows : list Row) (r' : Row) :
  r' ∈ sql_update flag key rows →
  ∃ r, r ∈ rows ∧ task_name r' = task_name r ∧
       (if String.eqb (task_name r) key then task_finished r' = flag
        else r' = r).
Proof.
  unfold sql_update. intros (r & -> & Hr)%list_elem_of_fmap.
  exists r. split; [exact Hr|].
  destruct (String.eqb (task_name r) key); done.
Qed.

Lemma sql_update_keeps (flag : Z) (key : string) (rows : list Row) (r : Row) :
  task_name r ≠ key → r ∈ rows → r ∈ sql_update flag key rows.
Proof.
  intros Hne Hr. unfold sql_update. apply list_elem_of_fmap.
  exists r. split; [|exact Hr].
  destruct (String.eqb_spec (task_name r) key); done.
Qed.

Lemma update_rows_length (ts : list Task) (rows : list Row) :
  length (update_rows ts rows) = length rows.
Proof.
  revert rows. induction ts as [|t ts IH]; intros rows; [done|].
  change (update_rows (t :: ts) rows)
    with (update_rows ts (sql_update (flag_of t) (name t) rows)).
  rewrite IH. apply sql_update_length.
Qed.

Lemma update_rows_keeps (ts : list Task) (rows : list Row) (r : Row) :
  (∀ t, t ∈ ts → name t ≠ task_name r) →
  r ∈ rows → r ∈ update_rows ts rows.
Proof.
  revert rows. induction ts as [|t ts IH]; intros rows Hno Hr; [done|].
  change (update_rows (t :: ts) rows)
    with (update_rows ts (sql_update (flag_of t) (name t) rows)).
  apply IH.
  - intros t' Ht'. apply Hno. by right.
  - apply sql_update_keeps; [|exact Hr].
    intros He. apply (Hno t); [left|done].
Qed.

(** Rows named [key] that all carry [flag] still do after the updates of
    tasks with other names. *)
Lemma update_rows_settled (ts : list Task) (rows : list Row)
    (key : string) (flag : Z) :
  (∀ t, t ∈ ts → name t ≠ key) →
  (∀ r, r ∈ rows → task_name r = key → task_finished r = flag) →
  ∀ r, r ∈ update_rows ts rows → task_name r = key → task_finished r = flag.
Proof.
  revert rows. induction ts as [|t ts IH]; intros rows Hno Hall; [done|].
  change (update_rows (t :: ts) rows)
    with (update_rows ts (sql_update (flag_of t) (name t) rows)).
  apply IH.
  - intros t' Ht'. apply Hno. by right.
  - intros r' (r & Hr & Hn & Hcase)%sql_update_elem Hkey.
    destruct (String.eqb_spec (task_name r) (name t)) as [He|_].
    + exfalso. apply (Hno t); [left|]. congruence.
    + subst r'. by apply Hall.
Qed.

(** ** Reading the finished rows *)

Lemma elem_of_select_finished (r : Row) (rows : list Row) :
  r ∈ select_finished rows ↔ r ∈ rows ∧ task_finished r = 1%Z.
Proof.
  unfold select_finished.
  rewrite !list_elem_of_In, List.filter_In, Z.eqb_eq. done.
Qed.

Lemma get_finished_tasks_rows (st : Store) (rows : list Row) :
  can_open st = true → table st = Some rows →
  get_finished_tasks st =
  map (fun r => mkTask (task_name r) (column_int (task_finished r) =? 1)%Z)
      (select_finished rows).
Proof.
  intros Hc Ht.
  unfold get_finished_tasks, sqlite3_open, sqlite3_prepare_v2, stored_rows.
  by rewrite Hc, Ht.
Qed.

Lemma get_finished_tasks_none (st : Store) :
  can_open st = false ∨ table st = None → get_finished_tasks st = [].
Proof.
  unfold get_finished_tasks, sqlite3_open, sqlite3_prepare_v2.
  intros [-> | ->]; [done|]. by destruct (can_open st).
Qed.

Lemma elem_of_get_finished_tasks (st : Store) (t : Task) :
  t ∈ get_finished_tasks st ↔
  can_open st = true ∧
  ∃ r, r ∈ stored_rows st ∧ task_finished r = 1%Z ∧
       t = mkTask (task_name r) true.
Proof.
  destruct (can_open st) eqn:Hc; cycle 1.
  { rewrite get_finished_tasks_none by auto. split.
    - intros []%elem_of_nil.
    - intros [? _]; discriminate. }
  destruct (table st) as [rows|] eqn:Ht; cycle 1.
  { rewrite get_finished_tasks_none by auto. unfold stored_rows. rewrite Ht.
    split.
    - intros []%elem_of_nil.
    - intros (_ & r & []%elem_of_nil & _). }
  rewrite (get_finished_tasks_rows _ _ Hc Ht). unfold stored_rows. rewrite Ht.
  split.
  - intros (r & -> & [Hr H1]%elem_of_select_finished)%list_elem_of_fmap.
    split; [done|]. exists r. by rewrite H1.
  - intros (_ & r & Hr & H1 & ->). apply list_elem_of_fmap.
    exists r. rewrite H1. split; [done|]. by apply elem_of_select_finished.
Qed.

Lemma get_finished_tasks_create (st : Store) :
  get_finished_tasks (create_database_and_table st) = get_finished_tasks st.
Proof. destruct st as [[|] [|] [rows|]]; reflexivity. Qed.

Lemma select_finished_app (rows1 rows2 : list Row) :
  select_finished (rows1 ++ rows2) =
  select_finished rows1 ++ select_finished rows2.
Proof. apply List.filter_app. Qed.

Lemma select_finished_cleared (rows : list Row) :
  select_finished
    (List.filter (fun r => negb (task_finished r =? 1)%Z) rows) = [].
Proof.
  induction rows as [|r rows IH]; simpl; [done|].
  destruct (task_finished r =? 1)%Z eqn:He; simpl; [done|]. by rewrite He.
Qed.

Lemma get_finished_tasks_clear (st : Store) :
  writable st = true → get_finished_tasks (clear_finished_tasks st) = [].
Proof.
  destruct st as [[|] w [rows|]]; simpl; intros ->; try reflexivity.
  unfold clear_finished_tasks, sqlite3_step. simpl.
  erewrite get_finished_tasks_rows by reflexivity.
  by rewrite select_finished_cleared.
Qed.

Lemma get_finished_tasks_add sql_other (task : string) (s : State) :
  quote_free task = true →
  get_finished_tasks (db (add_task sql_other task s)) =
  get_finished_tasks (db s).
Proof.
  intros Hq. destruct (decide (task = "")) as [->|Hne]; [done|].
  destruct (can_open (db s)) eqn:Hc; cycle 1.
  { by rewrite add_task_db_closed. }
  rewrite add_task_db_open by done.
  destruct (table (db s)) as [rows|] eqn:Ht; [|done].
  destruct (writable (db s)); [|done].
  rewrite (get_finished_tasks_rows (db s) rows) by done.
  erewrite get_finished_tasks_rows by (done || reflexivity).
  rewrite select_finished_app. simpl. by rewrite app_nil_r.
Qed.

(** ** The checkboxes *)

Lemma toggle_names (i : nat) (b : bool) (v : list Task) :
  name <$> toggle i b v = name <$> v.
Proof.
  unfold toggle. rewrite (list_fmap_alter name _ id).
  - by apply list_alter_id.
  - by apply Forall_forall.
Qed.

Lemma render_row_names (pressed : nat → bool) (v : list Task) (i : nat) :
  name <$> render_row pressed v i = name <$> v.
Proof.
  unfold render_row. destruct (v !! i) as [t|]; [|done].
  unfold Checkbox. destruct (pressed i); [|done]. apply toggle_names.
Qed.

Lemma render_task_list_names (pressed : nat → bool) (s : State) :
  name <$> tasks (render_task_list pressed s) = name <$> tasks s.
Proof.
  unfold render_task_list. simpl.
  generalize (seq 0 (length (tasks s))). generalize (tasks s).
  intros v l. revert v. induction l as [|i l IH]; intros v; simpl; [done|].
  rewrite IH. apply render_row_names.
Qed.

Lemma render_task_list_idle (pressed : nat → bool) (s : State) :
  (∀ i, pressed i = false) → tasks (render_task_list pressed s) = tasks s.
Proof.
  intros Hidle. unfold render_task_list. simpl.
  generalize (seq 0 (length (tasks s))). generalize (tasks s).
  intros v l. revert v. induction l as [|i l IH]; intros v; simpl; [done|].
  rewrite IH. unfold render_row, Checkbox.
  destruct (v !! i); [|done]. by rewrite Hidle.
Qed.

Lemma stored_rows_create (st : Store) :
  stored_rows (create_database_and_table st) = stored_rows st.
Proof. by destruct st as [[|] [|] [rows|]]. Qed.

Lemma names_differ_fmap (key : string) (v : list Task) :
  Forall (fun a => name a ≠ key) v ↔ Forall (fun x => x ≠ key) (name <$> v).
Proof. by rewrite Forall_fmap. Qed.

Lemma Forall_sublist_of {A} (P : A → Prop) (l1 l2 : list A) :
  l1 `sublist_of` l2 → Forall P l2 → Forall P l1.
Proof.
  rewrite !Forall_forall. intros Hsub Hall x Hx.
  apply Hall. by eapply elem_of_sublist.
Qed.

Lemma update_tasks_in_database_tasks (s : State) :
  tasks (update_tasks_in_database s) = tasks s ∧
  finished_tasks (update_tasks_in_database s) = finished_tasks s.
Proof.
  unfold update_tasks_in_database. by destruct (sqlite3_open (db s)).
Qed.

Lemma update_tasks_in_database_open (s : State) :
  can_open (db s) = true →
  db (update_tasks_in_database s) = update_loop (tasks s) (db s).
Proof.
  intros Hc. unfold update_tasks_in_database, sqlite3_open. by rewrite Hc.
Qed.

Lemma load_tasks_from_database_db (s : State) :
  db (load_tasks_from_database s) = db s ∧
  finished_tasks (load_tasks_from_database s) = finished_tasks s.
Proof.
  unfold load_tasks_from_database.
  destruct (sqlite3_open (db s)); try done.
  by destruct (sqlite3_prepare_v2 (db s)).
Qed.

Lemma update_loop_stored_rows (ts : list Task) (st : Store) :
  writable st = true → sqlite3_prepare_v2 st = SQLITE_OK →
  stored_rows (update_loop ts st) = update_rows ts (stored_rows st) ∧
  sqlite3_prepare_v2 (update_loop ts st) = SQLITE_OK ∧
  writable (update_loop ts st) = true.
Proof.
  intros Hw Hp. apply sqlite3_prepare_v2_OK in Hp.
  by rewrite (update_loop_rows _ _ _ Hw Hp).
Qed.

(** Adding a name without quote to an open store that can be written and
    has its table, then loading, shows that name as an active task. *)
Lemma add_then_load_quote_free sql_other (task : string) (s : State) :
  task ≠ "" → quote_free task = true →
  sqlite3_open (db s) = SQLITE_OK → sqlite3_prepare_v2 (db s) = SQLITE_OK →
  writable (db s) = true →
  mkTask task false ∈
  tasks (load_tasks_from_database (add_task sql_other task s)).
Proof.
  intros Hne Hq Ho Hp Hw.
  apply sqlite3_open_OK in Ho. apply sqlite3_prepare_v2_OK in Hp.
  unfold load_tasks_from_database.
  rewrite add_task_db_open by done. rewrite Hp, Hw.
  unfold sqlite3_open. simpl. rewrite Ho. simpl.
  apply list_elem_of_fmap. exists (mkRow task 0). split; [done|].
  unfold select_active. apply list_elem_of_In, List.filter_In.
  split; [|done]. apply list_elem_of_In, elem_of_app. right. by left.
Qed.

(** ** Clearing the finished rows *)

Lemma select_active_cleared (rows : list Row) :
  select_active
    (List.filter (fun r => negb (task_finished r =? 1)%Z) rows) =
  select_active rows.
Proof.
  induction rows as [|r rows IH]; simpl; [done|].
  destruct (task_finished r =? 1)%Z eqn:H1; simpl.
  - apply Z.eqb_eq in H1. rewrite H1. simpl. exact IH.
  - by rewrite IH.
Qed.

Lemma elem_of_cleared (r : Row) (rows : list Row) :
  r ∈ List.filter (fun r => negb (task_finished r =? 1)%Z) rows ↔
  r ∈ rows ∧ task_finished r ≠ 1%Z.
Proof.
  rewrite !list_elem_of_In, List.filter_In, negb_true_iff, Z.eqb_neq. done.
Qed.

Lemma clear_finished_tasks_open (st : Store) :
  sqlite3_open st = SQLITE_OK → sqlite3_prepare_v2 st = SQLITE_OK →
  writable st = true →
  stored_rows (clear_finished_tasks st) =
  List.filter (fun r => negb (task_finished r =? 1)%Z) (stored_rows st).
Proof.
  intros Ho Hp Hw. unfold clear_finished_tasks, sqlite3_step.
  by rewrite Ho, Hp, Hw.
Qed.

(** A DELETE that fails at its step leaves the file as it was. *)
Lemma clear_finished_tasks_read_only (st : Store) :
  writable st = false → clear_finished_tasks st = st.
Proof.
  intros Hw. unfold clear_finished_tasks, sqlite3_step. rewrite Hw.
  destruct (sqlite3_open st); try done.
  by destruct (sqlite3_prepare_v2 st).
Qed.

Lemma clear_finished_tasks_failure (st : Store) :
  sqlite3_open st ≠ SQLITE_OK ∨ sqlite3_prepare_v2 st ≠ SQLITE_OK →
  clear_finished_tasks st = st.
Proof.
  intros Hfail. unfold clear_finished_tasks.
  destruct (sqlite3_open st) eqn:Ho; try done.
  destruct (sqlite3_prepare_v2 st) eqn:Hp; try done.
  by destruct Hfail.
Qed.

(** ** A finished task through the frames *)

Section Held.

Variable sql_other : string -> Store -> rc * Store.
Variable t : Task.

Lemma held_create (s : State) :
  held_finished t s →
  held_finished t
    {| tasks := tasks s; finished_tasks := finished_tasks s;
       db := create_database_and_table (db s) |}.
Proof.
  intros (Hs & Ht & Hn). split_and!; [|done..].
  unfold finished_in_step; simpl. by rewrite get_finished_tasks_create.
Qed.

Lemma held_render (pressed : nat → bool) (s : State) :
  held_finished t s → held_finished t (render_task_list pressed s).
Proof.
  intros (Hs & Ht & Hn). split_and!; [done..|].
  apply names_differ_fmap. rewrite render_task_list_names.
  by apply names_differ_fmap.
Qed.

Lemma held_delete (s : State) :
  held_finished t s → held_finished t (delete_tasks s).
Proof.
  intros (Hs & Ht & Hn). unfold delete_tasks.
  destruct (update_tasks_in_database_tasks s) as [Htasks _].
  split_and!; simpl.
  - reflexivity.
  - rewrite Hs in Ht.
    apply elem_of_get_finished_tasks in Ht as (Hc & r & Hr & H1 & Heq).
    rewrite (update_tasks_in_database_open _ Hc).
    apply elem_of_get_finished_tasks.
    rewrite update_loop_can_open. split; [done|].
    exists r. split_and!; [|done..].
    destruct (update_loop_cases (tasks s) (db s)) as [->|(_ & -> & _)];
      [done|]. simpl.
    apply update_rows_keeps; [|done].
    intros a Ha. rewrite Forall_forall in Hn. rewrite Heq in Hn. by apply Hn.
  - rewrite Htasks. eapply Forall_sublist_of; [apply erase_loop_sublist|done].
Qed.

Lemma held_add (task : string) (s : State) :
  task ≠ name t → quote_free task = true →
  held_finished t s → held_finished t (add_task sql_other task s).
Proof.
  intros Hne Hq (Hs & Ht & Hn).
  destruct (decide (task = "")) as [->|Hnonempty]; [done|].
  destruct (add_task_tasks sql_other task s Hnonempty) as [Htasks Hfin].
  split_and!.
  - unfold finished_in_step. by rewrite Hfin, get_finished_tasks_add.
  - by rewrite Hfin.
  - rewrite Htasks. apply Forall_app. split; [done|].
    by apply Forall_singleton.
Qed.

Lemma held_frame (s : State) (inp : Input) :
  leaves_alone t inp → held_finished t s →
  held_finished t (frame sql_other s inp).
Proof.
  intros [Hclear Hadd] Hs. unfold frame. rewrite Hclear.
  apply held_create, (held_render (checkbox_pressed inp)) in Hs.
  set (s1 := render_task_list _ _) in *.
  assert (held_finished t (if delete_pressed inp then delete_tasks s1 else s1))
    as Hs2 by (destruct (delete_pressed inp); [by apply held_delete|done]).
  set (s2 := if delete_pressed inp then _ else _) in *.
  destruct (add_pressed inp); [|done].
  destruct (0 <? String.length (task_input inp)); [|done].
  destruct Hadd as [Hne Hq]; [done|]. by apply held_add.
Qed.

Lemma held_run (inps : list Input) (s : State) :
  Forall (leaves_alone t) inps → held_finished t s →
  held_finished t (run sql_other s inps).
Proof.
  intros Hall. revert s. induction Hall as [|inp inps Hinp _ IH]; intros s Hs.
  - done.
  - apply IH. by apply held_frame.
Qed.

End Held.

(** ** The finished collection against the store in every state *)

Section InStep.

Variable sql_other : string -> Store -> rc * Store.

Lemma create_database_and_table_writable (st : Store) :
  writable (create_database_and_table st) = writable st.
Proof. by destruct st as [[|] [|] [rows|]]. Qed.

Lemma add_task_writable (task : string) (s : State) :
  quote_free task = true →
  writable (db (add_task sql_other task s)) = writable (db s).
Proof.
  intros Hq. destruct (decide (task = "")) as [->|Hne]; [done|].
  destruct (can_open (db s)) eqn:Hc; [|by rewrite add_task_db_closed].
  rewrite add_task_db_open by done.
  destruct (table (db s)); [|done]. by destruct (writable (db s)) eqn:Hw.
Qed.

Lemma update_tasks_in_database_writable (s : State) :
  writable (db (update_tasks_in_database s)) = writable (db s).
Proof.
  unfold update_tasks_in_database. destruct (sqlite3_open (db s)); try done.
  apply update_loop_writable.
Qed.

Lemma clear_finished_tasks_writable (st : Store) :
  writable (clear_finished_tasks st) = writable st.
Proof. by destruct st as [[|] [|] [rows|]]. Qed.

(** A frame does not change whether the file can be written. *)
Lemma frame_writable (s : State) (inp : Input) :
  well_quoted inp →
  writable (db (frame sql_other s inp)) = writable (db s).
Proof.
  unfold well_quoted, frame. intros Hq.
  set (s0 := {| tasks := tasks s; finished_tasks := finished_tasks s;
                db := create_database_and_table (db s) |}).
  set (s1 := render_task_list (checkbox_pressed inp) s0).
  assert (writable (db s1) = writable (db s)) as H1
    by apply create_database_and_table_writable.
  set (s2 := if delete_pressed inp then delete_tasks s1 else s1).
  assert (writable (db s2) = writable (db s)) as H2.
  { unfold s2. destruct (delete_pressed inp); [|done].
    unfold delete_tasks. simpl.
    by rewrite update_tasks_in_database_writable. }
  set (s3 := if add_pressed inp then _ else s2).
  assert (writable (db s3) = writable (db s)) as H3.
  { unfold s3. destruct (add_pressed inp); [|done].
    destruct (0 <? String.length (task_input inp)); [|done].
    rewrite add_task_writable by auto. done. }
  destruct (clear_pressed inp); [|done].
  simpl. by rewrite clear_finished_tasks_writable.
Qed.

Lemma in_step_startup (st : Store) : finished_in_step (startup st).
Proof.
  unfold finished_in_step, startup. simpl. reflexivity.
Qed.

(** What a frame does to the finished collection: a clear empties it, a
    delete reads it from the store, and otherwise both it and what the
    store holds as finished stay. *)
Lemma frame_finished (s : State) (inp : Input) :
  well_quoted inp →
  (clear_pressed inp = true → finished_tasks (frame sql_other s inp) = []) ∧
  (clear_pressed inp = false → delete_pressed inp = true →
   finished_in_step (frame sql_other s inp)) ∧
  (clear_pressed inp = false → delete_pressed inp = false →
   finished_tasks (frame sql_other s inp) = finished_tasks s ∧
   get_finished_tasks (db (frame sql_other s inp)) =
   get_finished_tasks (db s)).
Proof.
  unfold well_quoted, finished_in_step, frame. intros Hq.
  set (s0 := {| tasks := tasks s; finished_tasks := finished_tasks s;
                db := create_database_and_table (db s) |}).
  set (s1 := render_task_list (checkbox_pressed inp) s0).
  set (s2 := if delete_pressed inp then delete_tasks s1 else s1).
  set (s3 := if add_pressed inp then _ else s2).
  assert (finished_tasks s3 = finished_tasks s2 ∧
          get_finished_tasks (db s3) = get_finished_tasks (db s2)) as [H3 G3].
  { unfold s3. destruct (add_pressed inp); [|done].
    destruct (0 <? String.length (task_input inp)); [|done].
    rewrite get_finished_tasks_add by auto. split; [|done].
    destruct (decide (task_input inp = "")) as [->|Hne]; [done|].
    by destruct (add_task_tasks sql_other (task_input inp) s2 Hne) as [_ ->]. }
  split_and!.
  - by intros ->.
  - intros -> Hd. rewrite H3, G3. unfold s2. by rewrite Hd.
  - intros -> Hd. rewrite H3, G3. unfold s2. rewrite Hd. simpl.
    by rewrite get_finished_tasks_create.
Qed.

(** A frame in which the list is not cleared keeps the finished collection
    in step with the store. *)
Lemma in_step_frame (s : State) (inp : Input) :
  well_quoted inp → clear_pressed inp = false → finished_in_step s →
  finished_in_step (frame sql_other s inp).
Proof.
  intros Hq Hclear Hs.
  destruct (frame_finished s inp Hq) as (_ & Hdel & Hkeep).
  destruct (delete_pressed inp) eqn:Hd; [by apply Hdel|].
  destruct (Hkeep Hclear eq_refl) as [Hf Hg].
  unfold finished_in_step in *. by rewrite Hf, Hg.
Qed.

(** After a clear the store holds nothing as finished when the file can be
    written. *)
Lemma cleared_frame (s : State) (inp : Input) :
  well_quoted inp → clear_pressed inp = true → writable (db s) = true →
  get_finished_tasks (db (frame sql_other s inp)) = [].
Proof.
  intros Hq Hclear Hs.
  pose proof (frame_writable s inp Hq) as Hw.
  unfold frame in *. rewrite Hclear in *. simpl in *.
  rewrite clear_finished_tasks_writable in Hw.
  apply get_finished_tasks_clear. congruence.
Qed.

(** In every state the program reaches the finished collection is what the
    store holds as finished, or it is empty; it is the former whenever the
    file can be written. *)
Lemma reachable_in_step (s : State) :
  reachable sql_other s →
  (finished_in_step s ∨ finished_tasks s = []) ∧
  (writable (db s) = true → finished_in_step s).
Proof.
  induction 1 as [st|s inp _ [IH1 IH2] Hq].
  - split; [left|intros _]; apply in_step_startup.
  - rewrite (frame_writable s inp Hq).
    destruct (frame_finished s inp Hq) as (Hclr & Hdel & Hkeep).
    destruct (clear_pressed inp) eqn:Hclear.
    + split; [right; by apply Hclr|].
      intros Hw. unfold finished_in_step.
      by rewrite Hclr, cleared_frame.
    + destruct (delete_pressed inp) eqn:Hd.
      * split; [left|intros _]; by apply Hdel.
      * destruct (Hkeep eq_refl eq_refl) as [Hf Hg].
        unfold finished_in_step in *. rewrite Hf, Hg. done.
Qed.

End InStep.

End Dx12Facts.

(** * Properties of the GLFW front end *)

Module GlfwFacts.
Import Sqlite SqliteFacts Glfw.

(** ** add_task *)

Section Facts.

Variable sql_other : string -> Store -> rc * Store.

Lemma glfw_sqlite3_exec_insert (now : Z) (t : string) (st : Store) :
  quote_free t = true → (- 2 ^ 63 < now < 2 ^ 63)%Z →
  sqlite3_exec sql_other
    (insert_head +:+ t +:+ insert_mid +:+ to_string now +:+ insert_end) st =
  match table st with
  | Some rows =>
      if writable st
      then (SQLITE_OK, with_table st (rows ++ [mkRow t 0 now]))
      else (SQLITE_READONLY, st)
  | None => (SQLITE_ERROR, st)
  end.
Proof.
  intros Hq Hnow. unfold sqlite3_exec, sqlite3_step.
  assert (String.eqb
            (insert_head +:+ t +:+ insert_mid +:+ to_string now +:+ insert_end)
            "COMMIT;" = false) as -> by reflexivity.
  rewrite strip_prefix_app.
  change (t +:+ insert_mid +:+ to_string now +:+ insert_end)
    with (t +:+ String "'"
            (String "," (" 0, " +:+ to_string now +:+ insert_end))).
  rewrite (scan_literal_comma _ _ Hq).
  change (String "," (" 0, " +:+ to_string now +:+ insert_end))
    with (insert_flag +:+ to_string now +:+ insert_end).
  rewrite strip_prefix_app.
  change (to_string now +:+ insert_end)
    with (to_string now +:+ String ")" ";").
  rewrite span_number_paren by apply all_number_chars_to_string.
  rewrite (read_integer_to_string _ Hnow). simpl.
  destruct (table st); [|reflexivity]. by destruct (writable st).
Qed.



Lemma glfw_add_task_db_open (now : Z) (task : string) (s : State) :
  task ≠ "" → quote_free task = true → (- 2 ^ 63 < now < 2 ^ 63)%Z →
  can_open (db s) = true →
  db (add_task sql_other now task s) =
  match table (db s) with
  | Some rows =>
      if writable (db s)
      then with_table (db s) (rows ++ [mkRow task 0 now])
      else db s
  | None => db s
  end.
Proof.
  intros Hne Hq Hnow Hc. unfold add_task, sqlite3_open. rewrite Hc.
  destruct (String.eqb_spec task "") as [->|_]; [done|]. simpl.
  rewrite (glfw_sqlite3_exec_insert _ _ _ Hq Hnow).
  destruct (table (db s)); [|reflexivity].
  destruct (writable (db s)); reflexivity.
Qed.

End Facts.

(** ** delete_tasks and update_tasks_in_database *)

Lemma erase_iter_loop_sublist (i : nat) (v : list Task) :
  erase_iter_loop i v `sublist_of` v.
Proof.
  funelim (erase_iter_loop i v); [|reflexivity].
  destruct (is_finished t); [|assumption].
  etrans; [eassumption|]. apply sublist_delete.
Qed.

(** When the iterator has passed only unfinished tasks, none that is
    finished is left at the end. *)
Lemma erase_iter_loop_not_finished (i : nat) (v : list Task) :
  (∀ j t, j < i → v !! j = Some t → is_finished t = false) →
  Forall (fun t => is_finished t = false) (erase_iter_loop i v).
Proof.
  funelim (erase_iter_loop i v); intros Hbefore.
  - destruct (is_finished t) eqn:Hfin.
    + match goal with IH : _ → Forall _ (erase_iter_loop i (delete i v)) |- _ =>
        apply IH end.
      intros j t' Hj Hl. rewrite list_lookup_delete_lt in Hl by done. eauto.
    + match goal with IH : _ → Forall _ (erase_iter_loop (S i) v) |- _ =>
        apply IH end.
      intros j t' Hj Hl. destruct (decide (j = i)) as [->|Hne].
      * congruence.
      * apply (Hbefore j); [lia|done].
  - apply Forall_lookup. intros j t' Hl. apply (Hbefore j); [|done].
    apply lookup_lt_Some in Hl.
    pose proof (proj1 (lookup_ge_None v i) e). lia.
Qed.

(** The UPDATE loop of the GLFW front end is the one of src/main.cpp on the
    rows without [time_added], and it leaves [time_added] alone. *)
Lemma sql_update_forget (flag : Z) (key : string) (rows : list Row) :
  map Forget.row (sql_update flag key rows) =
  Dx12.sql_update flag key (map Forget.row rows) ∧
  map row_time_added (sql_update flag key rows) = map row_time_added rows.
Proof.
  unfold sql_update, Dx12.sql_update.
  induction rows as [|r rows [IH1 IH2]]; simpl; [done|].
  rewrite IH1, IH2. by destruct (String.eqb (task_name r) key).
Qed.

Lemma update_loop_forget (ts : list Task) (st : Store) :
  Forget.store (update_loop ts st) =
  Dx12.update_loop (map Forget.task ts) (Forget.store st) ∧
  map row_time_added (stored_rows (update_loop ts st)) =
  map row_time_added (stored_rows st).
Proof.
  revert st. induction ts as [|t ts IH]; intros st; [done|].
  destruct st as [c [|] [rows|]]; [|done..].
  destruct (IH (with_table (mkStore c true (Some rows))
                  (sql_update (if is_finished t then 1%Z else 0%Z)
                     (name t) rows))) as [IH1 IH2].
  destruct (sql_update_forget (if is_finished t then 1%Z else 0%Z)
              (name t) rows) as [Hrows Htime].
  split.
  - etrans; [exact IH1|]. unfold with_table, Forget.store. simpl.
    by rewrite Hrows.
  - etrans; [exact IH2|]. exact Htime.
Qed.

Lemma update_tasks_in_database_forget (g : State) :
  Forget.state (update_tasks_in_database g) =
  Dx12.update_tasks_in_database (Forget.state g) ∧
  map row_time_added (stored_rows (db (update_tasks_in_database g))) =
  map row_time_added (stored_rows (db g)).
Proof.
  unfold update_tasks_in_database, Dx12.update_tasks_in_database.
  unfold sqlite3_open, Dx12.sqlite3_open. simpl.
  destruct (can_open (db g)); [|done].
  destruct (update_loop_forget (tasks g) (db g)) as [H1 H2].
  split; [|done]. unfold Forget.state. simpl. by rewrite H1.
Qed.

Lemma glfw_update_tasks_in_database_tasks (s : State) :
  tasks (update_tasks_in_database s) = tasks s.
Proof.
  unfold update_tasks_in_database. by destruct (sqlite3_open (db s)).
Qed.

End GlfwFacts.

(** * The properties of the specification *)

Module Spec.
Import Sqlite Dx12 Scenario.

(** The scenario of the specification, frame by frame. *)
Example scenario_startup :
  tasks (startup milk_and_bill) = [mkTask "Buy milk" false] ∧
  finished_tasks (startup milk_and_bill) = [mkTask "Pay bill" true].
Proof. split; reflexivity. Qed.

Example scenario_add :
  tasks (run sql_rejected (startup milk_and_bill) [press_add "Call mom"]) =
  [mkTask "Buy milk" false; mkTask "Call mom" false].
Proof. reflexivity. Qed.

Example scenario_delete :
  let s := run sql_rejected (startup milk_and_bill)
             [press_add "Call mom"; press_checkbox 0; press_delete] in
  tasks s = [mkTask "Call mom" false] ∧
  finished_tasks s = [mkTask "Buy milk" true; mkTask "Pay bill" true].
Proof. split; reflexivity. Qed.

Example scenario_clear :
  let s := run sql_rejected (startup milk_and_bill)
             [press_add "Call mom"; press_checkbox 0; press_delete;
              press_clear] in
  finished_tasks s = [] ∧ select_finished (stored_rows (db s)) = [].
Proof. split; reflexivity. Qed.

(** C1. After delete_tasks the active collection should hold no finished
    task and the finished collection should be the finished rows of the
    store.  In src/main.cpp the index moves on after an erase, so the task
    that slides into the erased slot is never looked at: with two checked
    tasks in a row, "b" stays in the active collection, checked, while the
    finished collection lists it too.  The iterator loop of the GLFW front
    end leaves no finished task behind, for every state. *)
Theorem delete_tasks_skips_next_task :
  (let s := run sql_rejected (startup a_then_b)
              [press_checkbox 0; press_checkbox 1; press_delete] in
   tasks s = [mkTask "b" true] ∧
   finished_tasks s = [mkTask "a" true; mkTask "b" true] ∧
   finished_tasks s = get_finished_tasks (db s)) ∧
  (∀ g : Glfw.State,
     Forall (fun t => Glfw.is_finished t = false)
            (Glfw.tasks (Glfw.delete_tasks g)) ∧
     Glfw.finished_tasks (Glfw.delete_tasks g) =
     Glfw.get_finished_tasks (Glfw.db (Glfw.delete_tasks g))).
Proof.
  split; [by vm_compute|]. intros g. split; [|reflexivity].
  apply GlfwFacts.erase_iter_loop_not_finished. intros j t Hj. lia.
Qed.

(** C3. add_task with the empty name changes nothing: no Task is created
    and no row is inserted; the state is the one before the call.  The main
    loop does not even call it: a frame in which the add button is pressed
    on an empty input field leaves the active collection and the stored
    rows as they were.  Both front ends have the guard. *)
Theorem add_task_empty_name (sql_other : string -> Store -> rc * Store)
    (s : State)
    (glfw_other : string -> Glfw.Store -> rc * Glfw.Store)
    (now : Z) (g : Glfw.State) :
  add_task sql_other "" s = s ∧
  tasks (add_task sql_other "" s) = tasks s ∧
  db (add_task sql_other "" s) = db s ∧
  tasks (frame sql_other s (press_add "")) = tasks s ∧
  stored_rows (db (frame sql_other s (press_add ""))) = stored_rows (db s) ∧
  Glfw.add_task glfw_other now "" g = g.
Proof.
  split_and!; try reflexivity.
  - by apply (Dx12Facts.render_task_list_idle (fun _ => false)
                {| tasks := tasks s; finished_tasks := finished_tasks s;
                   db := create_database_and_table (db s) |}).
  - apply Dx12Facts.stored_rows_create.
Qed.

(** C4. Setting the flag of the task at a valid index to the same target
    twice gives the same vector as setting it once, and the task at that
    index then carries the target, with its name (and, in the GLFW front
    end, its time) as before; with target true it is finished.  Both front
    ends. *)
Theorem toggle_same_target_twice (i : nat) (is_checked : bool)
    (v : list Task) (w : list Glfw.Task) :
  i < length v →
  toggle i is_checked (toggle i is_checked v) = toggle i is_checked v ∧
  (∃ t, v !! i = Some t ∧
        toggle i is_checked (toggle i is_checked v) !! i =
        Some (mkTask (name t) is_checked)) ∧
  Glfw.toggle i is_checked (Glfw.toggle i is_checked w) =
  Glfw.toggle i is_checked w ∧
  (∀ u, w !! i = Some u →
        Glfw.toggle i is_checked (Glfw.toggle i is_checked w) !! i =
        Some (Glfw.mkTask (Glfw.name u) is_checked (Glfw.time_added u))) ∧
  (∀ j, j ≠ i →
        toggle i is_checked (toggle i is_checked v) !! j = v !! j ∧
        Glfw.toggle i is_checked (Glfw.toggle i is_checked w) !! j = w !! j).
Proof.
  intros Hi. destruct (lookup_lt_is_Some_2 v i Hi) as [t Ht].
  assert (toggle i is_checked (toggle i is_checked v) = toggle i is_checked v)
    as Hsame.
  { unfold toggle. apply list_eq. intros j.
    destruct (decide (i = j)) as [<-|Hne].
    - rewrite !list_lookup_alter_eq. by destruct (v !! i).
    - by rewrite !list_lookup_alter_ne. }
  assert (Glfw.toggle i is_checked (Glfw.toggle i is_checked w) =
          Glfw.toggle i is_checked w) as Hglfw.
  { unfold Glfw.toggle. apply list_eq. intros j.
    destruct (decide (i = j)) as [<-|Hne].
    - rewrite !list_lookup_alter_eq. by destruct (w !! i).
    - by rewrite !list_lookup_alter_ne. }
  split_and!; [exact Hsame| |exact Hglfw| |].
  - exists t. split; [exact Ht|].
    rewrite Hsame. unfold toggle. by rewrite list_lookup_alter_eq, Ht.
  - intros u Hu. rewrite Hglfw. unfold Glfw.toggle.
    by rewrite list_lookup_alter_eq, Hu.
  - intros j Hj. rewrite Hsame, Hglfw. unfold toggle, Glfw.toggle.
    by rewrite !list_lookup_alter_ne.
Qed.

Lemma toggle_same_target_twice_witness :
  toggle 0 true (toggle 0 true [mkTask "Buy milk" false]) =
  [mkTask "Buy milk" true] ∧
  Glfw.toggle 0 true
    (Glfw.toggle 0 true [Glfw.mkTask "Buy milk" false 1700000000]) !! 0 =
  Some (Glfw.mkTask "Buy milk" true 1700000000).
Proof.
  destruct (toggle_same_target_twice 0 true [mkTask "Buy milk" false]
              [Glfw.mkTask "Buy milk" false 1700000000])
    as (Hsame & _ & _ & Hglfw & _).
  - simpl. lia.
  - split; [rewrite Hsame; reflexivity|].
    exact (Hglfw (Glfw.mkTask "Buy milk" false 1700000000) eq_refl).
Defined.

(** C9. When the store cannot be opened, or the SELECT statement cannot be
    prepared, load_tasks_from_database returns with the state, and so the
    active collection, as it was: the vector is cleared only after the
    statement is prepared.  Both front ends. *)
Theorem load_tasks_from_database_failure (s : State) (g : Glfw.State) :
  (sqlite3_open (db s) ≠ SQLITE_OK ∨ sqlite3_prepare_v2 (db s) ≠ SQLITE_OK →
   load_tasks_from_database s = s ∧
   tasks (load_tasks_from_database s) = tasks s) ∧
  (Glfw.sqlite3_open (Glfw.db g) ≠ SQLITE_OK ∨
   Glfw.sqlite3_prepare_v2 (Glfw.db g) ≠ SQLITE_OK →
   Glfw.load_tasks_from_database g = g ∧
   Glfw.tasks (Glfw.load_tasks_from_database g) = Glfw.tasks g).
Proof.
  split.
  - intros Hfail.
    assert (load_tasks_from_database s = s) as ->; [|done].
    unfold load_tasks_from_database.
    destruct (sqlite3_open (db s)) eqn:Ho; try done.
    destruct (sqlite3_prepare_v2 (db s)) eqn:Hp; try done.
    by destruct Hfail.
  - intros Hfail.
    assert (Glfw.load_tasks_from_database g = g) as ->; [|done].
    unfold Glfw.load_tasks_from_database.
    destruct (Glfw.sqlite3_open (Glfw.db g)) eqn:Ho; try done.
    destruct (Glfw.sqlite3_prepare_v2 (Glfw.db g)) eqn:Hp; try done.
    by destruct Hfail.
Qed.

Lemma load_tasks_from_database_failure_witness :
  tasks (load_tasks_from_database locked_session) = [mkTask "Buy milk" false] ∧
  tasks (load_tasks_from_database session_without_table) =
  [mkTask "Buy milk" false] ∧
  Glfw.tasks (Glfw.load_tasks_from_database glfw_locked_session) =
  Glfw.tasks glfw_locked_session.
Proof.
  split_and!.
  - apply (proj1 (load_tasks_from_database_failure
                    locked_session glfw_locked_session)).
    left. vm_compute. discriminate.
  - apply (proj1 (load_tasks_from_database_failure
                    session_without_table glfw_locked_session)).
    right. vm_compute. discriminate.
  - apply (proj2 (load_tasks_from_database_failure
                    locked_session glfw_locked_session)).
    left. vm_compute. discriminate.
Defined.

(** C10. delete_tasks keeps the remaining active tasks in their order: the
    active collection after the call is a subsequence of the one before.
    Both front ends. *)
Theorem delete_tasks_keeps_order (s : State) (g : Glfw.State) :
  tasks (delete_tasks s) `sublist_of` tasks s ∧
  Glfw.tasks (Glfw.delete_tasks g) `sublist_of` Glfw.tasks g.
Proof.
  split.
  - unfold delete_tasks. simpl.
    destruct (Dx12Facts.update_tasks_in_database_tasks s) as [-> _].
    apply Dx12Facts.erase_loop_sublist.
  - unfold Glfw.delete_tasks. simpl.
    rewrite GlfwFacts.glfw_update_tasks_in_database_tasks.
    apply GlfwFacts.erase_iter_loop_sublist.
Qed.




(** C5, as stated, fails where the file cannot be opened: the finished
    collection is emptied in memory and the finished row stays stored. *)
Lemma clear_list_locked_store_keeps_rows :
  finished_tasks (clear_list locked_session) = [] ∧
  select_finished (stored_rows (db (clear_list locked_session))) =
  [mkRow "Pay bill" 1].
Proof. split; reflexivity. Qed.

(** C5, amended. Clearing the list empties the finished collection and
    leaves the active collection as it was.  When the file opens, can be
    written and the DELETE statement prepares, the table becomes its rows
    with task_finished other than 1, each as it was and in the order they
    had: the rows with task_finished = 1 are removed and no other row is.
    When the file does not open, the statement does not prepare or its
    step fails because the file cannot be written, the store is left as it
    was. *)
Theorem clear_list_effect (s : State) :
  finished_tasks (clear_list s) = [] ∧
  tasks (clear_list s) = tasks s ∧
  (sqlite3_open (db s) = SQLITE_OK →
   sqlite3_prepare_v2 (db s) = SQLITE_OK →
   writable (db s) = true →
   db (clear_list s) =
   with_table (db s)
     (List.filter (fun r => negb (task_finished r =? 1)%Z)
                  (stored_rows (db s))) ∧
   stored_rows (db (clear_list s)) =
   List.filter (fun r => negb (task_finished r =? 1)%Z)
               (stored_rows (db s)) ∧
   select_finished (stored_rows (db (clear_list s))) = [] ∧
   select_active (stored_rows (db (clear_list s))) =
   select_active (stored_rows (db s)) ∧
   stored_rows (db (clear_list s)) `sublist_of` stored_rows (db s) ∧
   ∀ r, r ∈ stored_rows (db (clear_list s)) ↔
        r ∈ stored_rows (db s) ∧ task_finished r ≠ 1%Z) ∧
  (sqlite3_open (db s) ≠ SQLITE_OK ∨ sqlite3_prepare_v2 (db s) ≠ SQLITE_OK ∨
   writable (db s) = false →
   db (clear_list s) = db s).
Proof.
  split_and!; [done..| |].
  - intros Ho Hp Hw. simpl.
    rewrite (Dx12Facts.clear_finished_tasks_open _ Ho Hp Hw). split_and!.
    + unfold clear_finished_tasks, sqlite3_step. by rewrite Ho, Hp, Hw.
    + done.
    + apply Dx12Facts.select_finished_cleared.
    + apply Dx12Facts.select_active_cleared.
    + generalize (stored_rows (db s)). intros rows.
      induction rows as [|r rows IH]; simpl; [done|].
      destruct (negb _); by constructor.
    + intros r. apply Dx12Facts.elem_of_cleared.
  - intros [Hfail|[Hfail|Hfail]]; simpl.
    + apply Dx12Facts.clear_finished_tasks_failure. by left.
    + apply Dx12Facts.clear_finished_tasks_failure. by right.
    + by apply Dx12Facts.clear_finished_tasks_read_only.
Qed.

Lemma clear_list_effect_witness :
  stored_rows (db (clear_list (startup milk_and_bill))) =
  [mkRow "Buy milk" 0] ∧
  db (clear_list locked_session) = db locked_session ∧
  db (clear_list (startup milk_and_bill_read_only)) =
  milk_and_bill_read_only.
Proof.
  destruct (clear_list_effect (startup milk_and_bill)) as (_ & _ & Hopen & _).
  destruct Hopen as (_ & Hrows & _); [reflexivity..|].
  destruct (clear_list_effect locked_session) as (_ & _ & _ & Hfail).
  destruct (clear_list_effect (startup milk_and_bill_read_only))
    as (_ & _ & _ & Hro).
  split_and!; [exact Hrows| |].
  - apply Hfail. left. vm_compute. discriminate.
  - apply Hro. right. right. reflexivity.
Defined.

(** C6, as stated, fails where the updates are not carried out: on a file
    that does not open, and on one that opens but cannot be written (the
    first UPDATE fails at its step and the function returns), the row of a
    checked task keeps task_finished = 0. *)
Lemma update_unwritten_store_keeps_flags :
  stored_rows
    (db (update_tasks_in_database
           {| tasks := [mkTask "Buy milk" true]; finished_tasks := [];
              db := milk_and_bill_locked |})) =
  [mkRow "Buy milk" 0; mkRow "Pay bill" 1] ∧
  stored_rows
    (db (update_tasks_in_database
           {| tasks := [mkTask "Buy milk" true]; finished_tasks := [];
              db := milk_and_bill_read_only |})) =
  [mkRow "Buy milk" 0; mkRow "Pay bill" 1] ∧
  flag_of (mkTask "Buy milk" true) = 1%Z.
Proof. split_and!; reflexivity. Qed.

(** C6, amended. update_tasks_in_database keys each UPDATE on the name of
    the task.  With the file open, writable and the table there, for the
    task [t] at any place of the vector: its UPDATE sets task_finished to
    the flag of [t] in every row whose task_name is the name of [t], few or
    many, and leaves every other row as it was; when no row has that name
    the table does not change and the loop goes on; the loop runs through
    the whole vector; and when no later task has the name of [t], the rows
    of that name carry the flag of [t] at the end.  When the file does not
    open, the statement does not prepare or the file cannot be written, the
    store is left as it was.  The GLFW front end runs the same updates on
    its rows, whose [time_added] it leaves as it was. *)
Theorem update_keyed_on_name (s : State) (pre post : list Task) (t : Task)
    (g : Glfw.State) :
  tasks s = pre ++ t :: post →
  (sqlite3_open (db s) = SQLITE_OK →
   sqlite3_prepare_v2 (db s) = SQLITE_OK →
   writable (db s) = true →
   let before := stored_rows (update_loop pre (db s)) in
   let after := stored_rows (update_loop (pre ++ [t]) (db s)) in
   let final := stored_rows (db (update_tasks_in_database s)) in
   length after = length before ∧
   (∀ i r, before !! i = Some r →
      after !! i =
      Some (if String.eqb (task_name r) (name t)
            then mkRow (task_name r) (flag_of t) else r)) ∧
   ((∀ r, r ∈ before → task_name r ≠ name t) → after = before) ∧
   final = stored_rows (update_loop post (update_loop (pre ++ [t]) (db s))) ∧
   sqlite3_prepare_v2 (db (update_tasks_in_database s)) = SQLITE_OK ∧
   length final = length (stored_rows (db s)) ∧
   (Forall (fun a => name a ≠ name t) post →
    ∀ r, r ∈ final → task_name r = name t → task_finished r = flag_of t)) ∧
  (sqlite3_open (db s) ≠ SQLITE_OK ∨ sqlite3_prepare_v2 (db s) ≠ SQLITE_OK ∨
   writable (db s) = false →
   db (update_tasks_in_database s) = db s) ∧
  Forget.state (Glfw.update_tasks_in_database g) =
  update_tasks_in_database (Forget.state g) ∧
  map Glfw.row_time_added
      (Glfw.stored_rows (Glfw.db (Glfw.update_tasks_in_database g))) =
  map Glfw.row_time_added (Glfw.stored_rows (Glfw.db g)).
Proof.
  intros Htasks. split_and!.
  - intros Ho Hp Hw before after final.
    apply Dx12Facts.sqlite3_open_OK in Ho.
    destruct (Dx12Facts.update_loop_stored_rows pre _ Hw Hp) as [Hbefore _].
    destruct (Dx12Facts.update_loop_stored_rows (pre ++ [t]) _ Hw Hp)
      as (Hafter & Hp' & Hw').
    destruct (Dx12Facts.update_loop_stored_rows (tasks s) _ Hw Hp)
      as (Hfinal & Hpf & _).
    destruct (Dx12Facts.update_loop_stored_rows post _ Hw' Hp')
      as [Hpost _].
    assert (after = sql_update (flag_of t) (name t) before) as Hstep.
    { unfold after, before.
      by rewrite Hafter, Hbefore, Dx12Facts.update_rows_app. }
    assert (final = update_rows post after) as Hrest.
    { unfold final, after.
      rewrite (Dx12Facts.update_tasks_in_database_open _ Ho), Hfinal, Hafter.
      rewrite Htasks, <- Dx12Facts.update_rows_app, <- app_assoc. done. }
    split_and!.
    + rewrite Hstep. apply Dx12Facts.sql_update_length.
    + intros i r Hi. rewrite Hstep. by apply Dx12Facts.sql_update_lookup.
    + intros Hno. rewrite Hstep. by apply Dx12Facts.sql_update_no_match.
    + by rewrite Hrest, Hpost.
    + by rewrite (Dx12Facts.update_tasks_in_database_open _ Ho).
    + unfold final.
      rewrite (Dx12Facts.update_tasks_in_database_open _ Ho), Hfinal.
      apply Dx12Facts.update_rows_length.
    + intros Hlater. rewrite Hrest.
      apply Dx12Facts.update_rows_settled.
      * by apply Forall_forall.
      * rewrite Hstep.
        intros r' (r & _ & Hn & Hcase)%Dx12Facts.sql_update_elem Hkey.
        destruct (String.eqb_spec (task_name r) (name t)) as [_|Hne]; [done|].
        subst r'. done.
  - intros Hfail. unfold update_tasks_in_database.
    destruct (sqlite3_open (db s)) eqn:Ho; try done. simpl.
    destruct Hfail as [Hfail|[Hfail|Hfail]]; [done| |].
    + apply Dx12Facts.update_loop_no_table.
      unfold sqlite3_prepare_v2 in Hfail. by destruct (table (db s)).
    + by apply Dx12Facts.update_loop_read_only.
  - apply GlfwFacts.update_tasks_in_database_forget.
  - apply GlfwFacts.update_tasks_in_database_forget.
Qed.

Lemma update_keyed_on_name_witness :
  stored_rows
    (db (update_tasks_in_database
           {| tasks := [mkTask "Pay bill" false; mkTask "Walk dog" true];
              finished_tasks := [];
              db := {| can_open := true; writable := true;
                       table := Some [mkRow "Pay bill" 1; mkRow "Buy milk" 0;
                                      mkRow "Pay bill" 1] |} |})) =
  [mkRow "Pay bill" 0; mkRow "Buy milk" 0; mkRow "Pay bill" 0].
Proof.
  pose proof (update_keyed_on_name
    {| tasks := [mkTask "Pay bill" false; mkTask "Walk dog" true];
       finished_tasks := [];
       db := {| can_open := true; writable := true;
                table := Some [mkRow "Pay bill" 1; mkRow "Buy milk" 0;
                               mkRow "Pay bill" 1] |} |}
    [] [mkTask "Walk dog" true] (mkTask "Pay bill" false) glfw_a_then_b
    eq_refl) as (Hopen & _).
  destruct (Hopen eq_refl eq_refl eq_refl) as (_ & _ & _ & Hfinal & _).
  rewrite Hfinal. reflexivity.
Defined.

(** C7. After add_task has stored a name, load_tasks_from_database should
    show a task of that name.  add_task pastes the name between quotes into
    the SQL text, where two quotes in a row stand for one: the statement for
    the name it''s succeeds and stores it's, so the task that comes back
    bears another name than the one added.  (update_tasks_in_database
    binds the name as a parameter instead.) *)
Theorem add_task_quoted_name_not_reloaded
    (sql_other : string -> Store -> rc * Store) :
  fst (sqlite3_exec sql_other (insert_head +:+ "it''s" +:+ insert_tail)
         empty_table) = SQLITE_OK ∧
  stored_rows (db (add_task sql_other "it''s" (startup empty_table))) =
  [mkRow "it's" 0] ∧
  tasks (load_tasks_from_database
           (add_task sql_other "it''s" (startup empty_table))) =
  [mkTask "it's" false] ∧
  ¬ ∃ t, t ∈ tasks (load_tasks_from_database
                      (add_task sql_other "it''s" (startup empty_table))) ∧
         name t = "it''s".
Proof.
  assert (tasks (load_tasks_from_database
                   (add_task sql_other "it''s" (startup empty_table))) =
          [mkTask "it's" false]) as Hload by reflexivity.
  split_and!; [reflexivity..|exact Hload|].
  rewrite Hload. intros (t & Ht & Hn).
  apply list_elem_of_singleton in Ht. subst t. discriminate.
Qed.

(** C8, as stated, fails: update_tasks_in_database keys on the name.  With
    "Pay bill" finished, adding an active task of the same name and pressing
    the delete button, with nothing checked and the list not cleared, sets
    the stored rows of that name to 0; the task leaves the finished
    collection and the next start shows it as active. *)
Lemma finished_task_unfinished_by_name :
  reachable sql_rejected bill_added_again ∧
  finished_tasks bill_added_again = [mkTask "Pay bill" true] ∧
  clear_pressed press_delete = false ∧
  finished_tasks (frame sql_rejected bill_added_again press_delete) = [] ∧
  stored_rows (db (frame sql_rejected bill_added_again press_delete)) =
  [mkRow "Buy milk" 0; mkRow "Pay bill" 0; mkRow "Pay bill" 0] ∧
  tasks (startup (db (frame sql_rejected bill_added_again press_delete))) =
  [mkTask "Buy milk" false; mkTask "Pay bill" false; mkTask "Pay bill" false].
Proof.
  split_and!; try reflexivity.
  apply reachable_frame; [apply reachable_startup|].
  intros _. reflexivity.
Qed.

(** C8, amended. In every state the program reaches through frames whose
    added text has no quote character, a task of the finished collection
    whose name no active task bears stays finished through any frames that
    neither clear the list nor add a task of its name: it stays in the
    finished collection, its row stays stored with task_finished = 1, and
    no task of its name enters the active collection.  Clearing the list is
    then the one way out. *)
Theorem finished_task_stays_finished
    (sql_other : string -> Store -> rc * Store)
    (s : State) (inps : list Input) (t : Task) :
  reachable sql_other s →
  t ∈ finished_tasks s →
  Forall (fun a => name a ≠ name t) (tasks s) →
  Forall (leaves_alone t) inps →
  t ∈ finished_tasks (run sql_other s inps) ∧
  t ∈ get_finished_tasks (db (run sql_other s inps)) ∧
  Forall (fun a => name a ≠ name t) (tasks (run sql_other s inps)).
Proof.
  intros Hreach Ht Hn Hinps.
  assert (held_finished t s) as Hheld.
  { split_and!; [|done..].
    destruct (Dx12Facts.reachable_in_step sql_other s Hreach)
      as [[Hstep|Hempty] _]; [done|].
    rewrite Hempty in Ht. by apply elem_of_nil in Ht. }
  destruct (Dx12Facts.held_run sql_other t inps s Hinps Hheld)
    as (Hstep & Hin & Hnames).
  split_and!; [done| |done]. by rewrite <- Hstep.
Qed.

Lemma finished_task_stays_finished_witness :
  mkTask "Pay bill" true ∈
  finished_tasks
    (run sql_rejected (startup milk_and_bill)
       [press_add "Call mom"; press_checkbox 0; press_delete]).
Proof.
  apply (finished_task_stays_finished sql_rejected (startup milk_and_bill)
           [press_add "Call mom"; press_checkbox 0; press_delete]
           (mkTask "Pay bill" true)).
  - apply reachable_startup.
  - apply list_elem_of_here.
  - repeat constructor. simpl. discriminate.
  - repeat constructor; simpl; intros; try discriminate.
Defined.

End Spec.

(** * Further properties of the two front ends *)

Module More.
Import Sqlite SqliteFacts.

(** ** removeQuotes *)

Section RemoveQuotes.
Import GlfwMain.

Lemma string_length_app (s1 s2 : string) :
  String.length (s1 +:+ s2) = String.length s1 + String.length s2.
Proof. induction s1 as [|c s1 IH]; simpl; [done|]. by rewrite IH. Qed.

Lemma substring_all_app (s r : string) :
  String.substring 0 (String.length s) (s +:+ r) = s.
Proof.
  induction s as [|c s IH]; simpl; [by destruct r|]. by rewrite IH.
Qed.

Lemma get_last_app (s : string) (c : ascii) :
  String.get (String.length s) (s +:+ String c EmptyString) = Some c.
Proof. induction s as [|a s IH]; simpl; [done|exact IH]. Qed.

(** A text that ends with [c] is some text followed by [c]. *)
Lemma get_last_inv (s : string) (c : ascii) :
  s ≠ EmptyString → String.get (String.length s - 1) s = Some c →
  ∃ s', s = s' +:+ String c EmptyString.
Proof.
  induction s as [|a s IH]; [done|]. intros _ Hget.
  destruct s as [|b s].
  - simpl in Hget. injection Hget as ->. by exists EmptyString.
  - destruct IH as [s' Hs']; [done| |].
    + simpl in *. by rewrite Nat.sub_0_r in *.
    + exists (String a s'). rewrite Hs'. reflexivity.
Qed.

Lemma back_cons (a : ascii) (s : string) :
  s ≠ EmptyString → back (String a s) = back s.
Proof.
  intros Hs. destruct s as [|b s]; [done|].
  unfold back. simpl. by rewrite Nat.sub_0_r.
Qed.

Lemma removeQuotes_quoted_eq (s : string) : removeQuotes (quoted s) = s.
Proof.
  unfold removeQuotes, quoted, front, back.
  change (String.length (String dquote (s +:+ String dquote EmptyString)))
    with (S (String.length (s +:+ String dquote EmptyString))).
  rewrite string_length_app. simpl String.length.
  replace (S (String.length s + 1) - 1) with (S (String.length s)) by lia.
  replace (S (String.length s + 1) - 2) with (String.length s) by lia.
  replace (Nat.leb 2 (S (String.length s + 1))) with true
    by (symmetry; apply Nat.leb_le; lia).
  change (String.get 0 (String dquote (s +:+ String dquote EmptyString)))
    with (Some dquote).
  change (String.get (S (String.length s))
            (String dquote (s +:+ String dquote EmptyString)))
    with (String.get (String.length s) (s +:+ String dquote EmptyString)).
  rewrite get_last_app. simpl. apply substring_all_app.
Qed.

End RemoveQuotes.

(** X1. removeQuotes takes one pair of enclosing double quotes off: a text
    put between two double quotes comes back as it was (whatever it holds,
    quotes included, so a text quoted twice comes back quoted once); every
    input that is not of that shape is returned unchanged; the result is
    never longer than the input. *)
Theorem removeQuotes_strips_one_pair :
  (∀ s, GlfwMain.removeQuotes (GlfwMain.quoted s) = s) ∧
  (∀ s, GlfwMain.removeQuotes (GlfwMain.quoted (GlfwMain.quoted s)) =
        GlfwMain.quoted s) ∧
  (∀ input, (∀ s, input ≠ GlfwMain.quoted s) →
            GlfwMain.removeQuotes input = input) ∧
  (∀ input, String.length (GlfwMain.removeQuotes input) ≤ String.length input).
Proof.
  assert (∀ input, GlfwMain.removeQuotes input = input ∨
                   ∃ s, input = GlfwMain.quoted s) as Hshape.
  { intros input. unfold GlfwMain.removeQuotes.
    destruct (Nat.leb 2 (String.length input)) eqn:Hlen; [|by left].
    destruct (GlfwMain.is_dquote (GlfwMain.front input)) eqn:Hf; [|by left].
    destruct (GlfwMain.is_dquote (GlfwMain.back input)) eqn:Hb; [|by left].
    right. apply Nat.leb_le in Hlen.
    destruct input as [|a rest]; [simpl in Hlen; lia|].
    unfold GlfwMain.front in Hf. simpl in Hf. apply Ascii.eqb_eq in Hf.
    subst a.
    destruct rest as [|b rest]; [simpl in Hlen; lia|].
    rewrite back_cons in Hb by done.
    unfold GlfwMain.back, GlfwMain.is_dquote in Hb.
    destruct (String.get (String.length (String b rest) - 1) (String b rest))
      as [c|] eqn:Hget; [|done].
    apply Ascii.eqb_eq in Hb. subst c.
    destruct (get_last_inv (String b rest) GlfwMain.dquote) as [s Hs];
      [done|done|].
    exists s. unfold GlfwMain.quoted. by rewrite Hs. }
  split_and!.
  - apply removeQuotes_quoted_eq.
  - intros s. apply removeQuotes_quoted_eq.
  - intros input Hnot. destruct (Hshape input) as [H|[s H]]; [done|].
    by destruct (Hnot s).
  - intros input. destruct (Hshape input) as [->|[s ->]]; [done|].
    rewrite removeQuotes_quoted_eq. unfold GlfwMain.quoted. simpl.
    rewrite string_length_app. lia.
Qed.

Lemma removeQuotes_strips_one_pair_witness :
  GlfwMain.removeQuotes (String GlfwMain.dquote "a") =
  String GlfwMain.dquote "a".
Proof.
  apply (proj1 (proj2 (proj2 removeQuotes_strips_one_pair))).
  intros s Hs. unfold GlfwMain.quoted in Hs. injection Hs as Hs.
  destruct s as [|c s]; [discriminate|].
  simpl in Hs. injection Hs as _ Hs.
  destruct s; discriminate.
Defined.

(** ** The schema and the two SELECT statements *)



Section Select.
Import Dx12 Dx12More.

Lemma column_int_small (v : Z) :
  (- 2 ^ 31 <= v < 2 ^ 31)%Z → column_int v = v.
Proof.
  intros Hv. unfold column_int.
  rewrite Z.mod_small by lia. lia.
Qed.

Lemma elem_of_select_active (r : Row) (rows : list Row) :
  r ∈ select_active rows ↔ r ∈ rows ∧ task_finished r = 0%Z.
Proof.
  unfold select_active.
  rewrite !list_elem_of_In, List.filter_In, Z.eqb_eq. done.
Qed.

Lemma loaded_active (rows : list Row) :
  map loaded (select_active rows) =
  map (fun r => mkTask (task_name r) false) (select_active rows).
Proof.
  apply map_ext_in. intros r Hr%list_elem_of_In.
  apply elem_of_select_active in Hr as [_ H0].
  unfold loaded. by rewrite H0.
Qed.

Lemma load_tasks_from_database_open (s : State) :
  sqlite3_open (db s) = SQLITE_OK → sqlite3_prepare_v2 (db s) = SQLITE_OK →
  load_tasks_from_database s =
  {| tasks := map loaded (select_active (stored_rows (db s)));
     finished_tasks := finished_tasks s; db := db s |}.
Proof.
  intros Ho Hp. unfold load_tasks_from_database. by rewrite Ho, Hp.
Qed.

Lemma load_tasks_from_database_again (s : State) :
  load_tasks_from_database (load_tasks_from_database s) =
  load_tasks_from_database s.
Proof.
  unfold load_tasks_from_database.
  destruct (sqlite3_open (db s)) eqn:Ho; rewrite ?Ho; try done.
  destruct (sqlite3_prepare_v2 (db s)) eqn:Hp; rewrite ?Ho, ?Hp; try done.
  simpl. by rewrite Ho, Hp.
Qed.

Lemma get_finished_tasks_all_finished (st : Store) :
  Forall (fun t => is_finished t = true) (get_finished_tasks st).
Proof.
  apply Forall_forall. intros t Ht.
  apply Dx12Facts.elem_of_get_finished_tasks in Ht as (_ & r & _ & _ & ->).
  done.
Qed.

End Select.

(** X3. When the file opens and the SELECT prepares,
    load_tasks_from_database replaces the active collection by one task per
    row with task_finished = 0, in the order of the table, bearing the name
    of the row and unchecked, whatever the collection held before; it
    leaves the finished collection and the store alone, and a second load
    changes nothing (this last on failure too). *)
Theorem load_tasks_from_database_shows_active_rows (s : Dx12.State) :
  Dx12.sqlite3_open (Dx12.db s) = SQLITE_OK →
  Dx12.sqlite3_prepare_v2 (Dx12.db s) = SQLITE_OK →
  Dx12.tasks (Dx12.load_tasks_from_database s) =
  map (fun r => Dx12.mkTask (Dx12.task_name r) false)
      (Dx12.select_active (Dx12.stored_rows (Dx12.db s))) ∧
  Forall (fun t => Dx12.is_finished t = false)
         (Dx12.tasks (Dx12.load_tasks_from_database s)) ∧
  Dx12.finished_tasks (Dx12.load_tasks_from_database s) =
  Dx12.finished_tasks s ∧
  Dx12.db (Dx12.load_tasks_from_database s) = Dx12.db s ∧
  Dx12.load_tasks_from_database (Dx12.load_tasks_from_database s) =
  Dx12.load_tasks_from_database s.
Proof.
  intros Ho Hp. rewrite (load_tasks_from_database_open s Ho Hp). simpl.
  rewrite loaded_active. split_and!; try done.
  - apply Forall_forall. by intros t (r & -> & _)%list_elem_of_fmap.
  - rewrite <- loaded_active, <- (load_tasks_from_database_open s Ho Hp).
    apply load_tasks_from_database_again.
Qed.

Lemma load_tasks_from_database_shows_active_rows_witness :
  Dx12.tasks (Dx12.load_tasks_from_database
                {| Dx12.tasks := [Dx12.mkTask "Walk dog" true];
                   Dx12.finished_tasks := [];
                   Dx12.db := Scenario.milk_and_bill |}) =
  [Dx12.mkTask "Buy milk" false].
Proof.
  destruct (load_tasks_from_database_shows_active_rows
    {| Dx12.tasks := [Dx12.mkTask "Walk dog" true];
       Dx12.finished_tasks := [];
       Dx12.db := Scenario.milk_and_bill |} eq_refl eq_refl) as [H _].
  rewrite H. reflexivity.
Defined.

(** X4. get_finished_tasks never returns an unchecked task: every task of
    its result has is_finished = true, and the names are those of the rows
    with task_finished = 1, in the order of the table; rows with any other
    flag are not shown.  When the file does not open or the SELECT does not
    prepare the result is empty. *)
Theorem get_finished_tasks_shows_finished_rows (st : Dx12.Store) :
  Forall (fun t => Dx12.is_finished t = true) (Dx12.get_finished_tasks st) ∧
  (Dx12.sqlite3_open st = SQLITE_OK →
   Dx12.sqlite3_prepare_v2 st = SQLITE_OK →
   Dx12.get_finished_tasks st =
   map (fun r => Dx12.mkTask (Dx12.task_name r) true)
       (Dx12.select_finished (Dx12.stored_rows st))) ∧
  (Dx12.sqlite3_open st ≠ SQLITE_OK ∨
   Dx12.sqlite3_prepare_v2 st ≠ SQLITE_OK →
   Dx12.get_finished_tasks st = []).
Proof.
  split_and!.
  - apply get_finished_tasks_all_finished.
  - intros Ho Hp. unfold Dx12.get_finished_tasks. rewrite Ho, Hp.
    apply map_ext_in. intros r Hr%list_elem_of_In.
    apply Dx12Facts.elem_of_select_finished in Hr as [_ H1]. by rewrite H1.
  - intros Hfail. unfold Dx12.get_finished_tasks.
    destruct (Dx12.sqlite3_open st) eqn:Ho; try done.
    destruct (Dx12.sqlite3_prepare_v2 st) eqn:Hp; try done.
    by destruct Hfail.
Qed.

Lemma get_finished_tasks_shows_finished_rows_witness :
  Dx12.get_finished_tasks Scenario.milk_and_bill =
  [Dx12.mkTask "Pay bill" true] ∧
  Dx12.get_finished_tasks Scenario.milk_and_bill_locked = [].
Proof.
  destruct (get_finished_tasks_shows_finished_rows Scenario.milk_and_bill)
    as (_ & Hopen & _).
  destruct (get_finished_tasks_shows_finished_rows
              Scenario.milk_and_bill_locked) as (_ & _ & Hfail).
  split.
  - rewrite Hopen; reflexivity.
  - apply Hfail. left. vm_compute. discriminate.
Defined.

(** X5. When the file opens and the table is there, every row is shown
    once or not at all at startup: the active tasks, the finished tasks and
    the rows whose flag is neither 0 nor 1 add up to the rows of the table;
    with only flags 0 and 1 in the table the two collections hold as many
    tasks as there are rows.  When the file does not open or has no table,
    both collections start empty. *)
Theorem startup_splits_the_rows (st : Dx12.Store) :
  (Dx12.sqlite3_open st = SQLITE_OK →
   Dx12.sqlite3_prepare_v2 st = SQLITE_OK →
   length (Dx12.tasks (Dx12.startup st)) +
   length (Dx12.finished_tasks (Dx12.startup st)) +
   length (List.filter
             (fun r => negb (Dx12.task_finished r =? 0)%Z
                       && negb (Dx12.task_finished r =? 1)%Z)
             (Dx12.stored_rows st)) =
   length (Dx12.stored_rows st) ∧
   (Forall (fun r => Dx12.task_finished r = 0%Z ∨ Dx12.task_finished r = 1%Z)
           (Dx12.stored_rows st) →
    length (Dx12.tasks (Dx12.startup st)) +
    length (Dx12.finished_tasks (Dx12.startup st)) =
    length (Dx12.stored_rows st))) ∧
  (Dx12.sqlite3_open st ≠ SQLITE_OK ∨
   Dx12.sqlite3_prepare_v2 st ≠ SQLITE_OK →
   Dx12.tasks (Dx12.startup st) = [] ∧
   Dx12.finished_tasks (Dx12.startup st) = []).
Proof.
  split; cycle 1.
  { destruct st as [[|] w [rows|]]; intros [Hfail|Hfail]; done. }
  intros Hc Ht. apply Dx12Facts.sqlite3_open_OK in Hc.
  apply Dx12Facts.sqlite3_prepare_v2_OK in Ht.
  set (rows := Dx12.stored_rows st) in *.
  assert (Dx12.tasks (Dx12.startup st) =
          map Dx12More.loaded (Dx12.select_active rows)) as ->.
  { unfold Dx12.startup, Dx12.load_tasks_from_database, Dx12.sqlite3_open,
      Dx12.sqlite3_prepare_v2. simpl. by rewrite Hc, Ht. }
  assert (Dx12.finished_tasks (Dx12.startup st) =
          Dx12.get_finished_tasks st) as ->.
  { unfold Dx12.startup.
    by destruct (Dx12Facts.load_tasks_from_database_db
                   {| Dx12.tasks := []; Dx12.finished_tasks := [];
                      Dx12.db := st |}) as [-> _]. }
  rewrite (Dx12Facts.get_finished_tasks_rows st rows Hc Ht).
  rewrite !length_map.
  assert (length (Dx12.select_active rows) +
          length (Dx12.select_finished rows) +
          length (List.filter
                    (fun r => negb (Dx12.task_finished r =? 0)%Z
                              && negb (Dx12.task_finished r =? 1)%Z) rows) =
          length rows) as Hsum.
  { unfold Dx12.select_active, Dx12.select_finished. clear Ht.
    induction rows as [|r rows' IH]; simpl; [done|].
    destruct (Z.eqb_spec (Dx12.task_finished r) 0) as [H0|H0];
      destruct (Z.eqb_spec (Dx12.task_finished r) 1) as [H1|H1];
      simpl; lia. }
  split; [exact Hsum|].
  intros Hflags.
  assert (List.filter
            (fun r => negb (Dx12.task_finished r =? 0)%Z
                      && negb (Dx12.task_finished r =? 1)%Z) rows = [])
    as Hnone.
  { clear Hsum Ht. induction Hflags as [|r rows' Hr _ IH]; simpl; [done|].
    destruct Hr as [-> | ->]; simpl; exact IH. }
  rewrite Hnone in Hsum. simpl in Hsum. lia.
Qed.

Lemma startup_splits_the_rows_witness :
  length (Dx12.tasks (Dx12.startup Scenario.milk_and_bill)) +
  length (Dx12.finished_tasks (Dx12.startup Scenario.milk_and_bill)) = 2 ∧
  Dx12.tasks (Dx12.startup Scenario.milk_and_bill_locked) = [].
Proof.
  destruct (startup_splits_the_rows Scenario.milk_and_bill) as [Hopen _].
  destruct (Hopen eq_refl eq_refl) as [_ Hall].
  destruct (startup_splits_the_rows Scenario.milk_and_bill_locked)
    as [_ Hfail].
  split.
  - apply Hall.
    constructor; [left; reflexivity|].
    constructor; [right; reflexivity|]. constructor.
  - apply Hfail. left. vm_compute. discriminate.
Defined.

(** ** update_tasks_in_database *)

Section Update.
Import Dx12 Dx12More.

Lemma last_named_snoc (key : string) (ts : list Task) (t : Task) :
  last_named key (ts ++ [t]) =
  if String.eqb (name t) key then Some t else last_named key ts.
Proof. unfold last_named. by rewrite foldl_snoc. Qed.

Lemma final_row_name (ts : list Task) (r : Row) :
  task_name (final_row ts r) = task_name r.
Proof. unfold final_row. by destruct (last_named (task_name r) ts). Qed.

Lemma update_rows_snoc (ts : list Task) (t : Task) (rows : list Row) :
  update_rows (ts ++ [t]) rows =
  sql_update (flag_of t) (name t) (update_rows ts rows).
Proof. unfold update_rows. by rewrite foldl_snoc. Qed.

Lemma final_row_snoc (ts : list Task) (t : Task) (r : Row) :
  final_row (ts ++ [t]) r =
  if String.eqb (task_name r) (name t)
  then mkRow (task_name r) (flag_of t) else final_row ts r.
Proof.
  unfold final_row. rewrite last_named_snoc, String.eqb_sym.
  by destruct (String.eqb (task_name r) (name t)).
Qed.

Lemma update_rows_final (ts : list Task) (rows : list Row) :
  update_rows ts rows = map (final_row ts) rows.
Proof.
  induction ts as [|t ts IH] using rev_ind.
  - unfold final_row. simpl. by rewrite map_id.
  - rewrite update_rows_snoc, IH. unfold sql_update.
    rewrite map_map. apply map_ext. intros r.
    by rewrite final_row_name, final_row_snoc.
Qed.

Lemma last_named_later (key : string) (ts post : list Task) :
  Forall (fun a => name a ≠ key) post →
  last_named key (ts ++ post) = last_named key ts.
Proof.
  induction post as [|a post IH] using rev_ind; intros Hpost.
  - by rewrite app_nil_r.
  - apply Forall_app in Hpost as [Hpost Ha].
    rewrite Forall_singleton in Ha.
    rewrite app_assoc, last_named_snoc, (IH Hpost).
    by destruct (String.eqb_spec (name a) key).
Qed.

Lemma final_row_again (ts : list Task) (r : Row) :
  final_row ts (final_row ts r) = final_row ts r.
Proof.
  unfold final_row at 1. rewrite final_row_name.
  unfold final_row. by destruct (last_named (task_name r) ts).
Qed.

Lemma update_rows_again (ts : list Task) (rows : list Row) :
  update_rows ts (update_rows ts rows) = update_rows ts rows.
Proof.
  rewrite !update_rows_final, map_map. apply map_ext.
  intros r. apply final_row_again.
Qed.

Lemma update_rows_names (ts : list Task) (rows : list Row) :
  map task_name (update_rows ts rows) = map task_name rows.
Proof.
  rewrite update_rows_final, map_map. apply map_ext.
  intros r. apply final_row_name.
Qed.

End Update.

(** X6. With the file open, writable and the table there,
    update_tasks_in_database leaves in every row the flag of the last task
    of the vector that bears the name of the row, and the old flag when no
    task bears it; so with two tasks of one name the later one decides,
    whatever the earlier one says.  When the file does not open, the
    statement does not prepare or the file cannot be written (the first
    step fails and the function returns), every row keeps its flag. *)
Theorem update_last_task_decides (s : Dx12.State) :
  (Dx12.sqlite3_open (Dx12.db s) = SQLITE_OK →
   Dx12.sqlite3_prepare_v2 (Dx12.db s) = SQLITE_OK →
   Dx12.writable (Dx12.db s) = true →
   Dx12.stored_rows (Dx12.db (Dx12.update_tasks_in_database s)) =
   map (Dx12More.final_row (Dx12.tasks s)) (Dx12.stored_rows (Dx12.db s)) ∧
   (∀ r, r ∈ Dx12.stored_rows (Dx12.db s) →
         Dx12More.last_named (Dx12.task_name r) (Dx12.tasks s) = None →
         r ∈ Dx12.stored_rows (Dx12.db (Dx12.update_tasks_in_database s)))) ∧
  (Dx12.sqlite3_open (Dx12.db s) ≠ SQLITE_OK ∨
   Dx12.sqlite3_prepare_v2 (Dx12.db s) ≠ SQLITE_OK ∨
   Dx12.writable (Dx12.db s) = false →
   Dx12.db (Dx12.update_tasks_in_database s) = Dx12.db s) ∧
  (∀ pre t post,
     Dx12.tasks s = pre ++ t :: post →
     Forall (fun a => Dx12.name a ≠ Dx12.name t) post →
     Dx12More.last_named (Dx12.name t) (Dx12.tasks s) = Some t).
Proof.
  split_and!.
  - intros Ho Hp Hw.
    apply Dx12Facts.sqlite3_open_OK in Ho.
    destruct (Dx12Facts.update_loop_stored_rows (Dx12.tasks s) _ Hw Hp)
      as [Hrows _].
    rewrite (Dx12Facts.update_tasks_in_database_open _ Ho), Hrows.
    rewrite update_rows_final. split; [done|].
    intros r Hr Hnone. apply list_elem_of_fmap. exists r. split; [|done].
    unfold Dx12More.final_row. by rewrite Hnone.
  - intros Hfail. unfold Dx12.update_tasks_in_database.
    destruct (Dx12.sqlite3_open (Dx12.db s)) eqn:Ho; try done. simpl.
    destruct Hfail as [Hfail|[Hfail|Hfail]]; [done| |].
    + apply Dx12Facts.update_loop_no_table.
      unfold Dx12.sqlite3_prepare_v2 in Hfail.
      by destruct (Dx12.table (Dx12.db s)).
    + by apply Dx12Facts.update_loop_read_only.
  - intros pre t post -> Hpost.
    change (pre ++ t :: post) with (pre ++ [t] ++ post).
    rewrite app_assoc, (last_named_later _ _ _ Hpost), last_named_snoc.
    by rewrite String.eqb_refl.
Qed.

Lemma update_last_task_decides_witness :
  Dx12.stored_rows
    (Dx12.db (Dx12.update_tasks_in_database
                {| Dx12.tasks := [Dx12.mkTask "Pay bill" true;
                                  Dx12.mkTask "Pay bill" false];
                   Dx12.finished_tasks := [];
                   Dx12.db := Scenario.milk_and_bill |})) =
  [Dx12.mkRow "Buy milk" 0; Dx12.mkRow "Pay bill" 0] ∧
  Dx12.db (Dx12.update_tasks_in_database
             {| Dx12.tasks := [Dx12.mkTask "Pay bill" false];
                Dx12.finished_tasks := [];
                Dx12.db := Scenario.milk_and_bill_read_only |}) =
  Scenario.milk_and_bill_read_only.
Proof.
  destruct (update_last_task_decides
    {| Dx12.tasks := [Dx12.mkTask "Pay bill" true;
                      Dx12.mkTask "Pay bill" false];
       Dx12.finished_tasks := [];
       Dx12.db := Scenario.milk_and_bill |}) as (Hopen & _).
  destruct (Hopen eq_refl eq_refl eq_refl) as [H _].
  destruct (update_last_task_decides
    {| Dx12.tasks := [Dx12.mkTask "Pay bill" false];
       Dx12.finished_tasks := [];
       Dx12.db := Scenario.milk_and_bill_read_only |}) as (_ & Hfail & _).
  split.
  - rewrite H. reflexivity.
  - apply Hfail. right. right. reflexivity.
Defined.

(** X7. update_tasks_in_database can be repeated: a second run right after
    the first changes nothing, whether the file opens or not and whether
    the table is there or not. *)
Theorem update_tasks_in_database_twice (s : Dx12.State) :
  Dx12.update_tasks_in_database (Dx12.update_tasks_in_database s) =
  Dx12.update_tasks_in_database s.
Proof.
  unfold Dx12.update_tasks_in_database, Dx12.sqlite3_open.
  destruct (Dx12.can_open (Dx12.db s)) eqn:Hc; rewrite ?Hc; [|done].
  simpl. rewrite Dx12Facts.update_loop_can_open, Hc. f_equal.
  destruct (Dx12Facts.update_loop_cases (Dx12.tasks s) (Dx12.db s))
    as [Hsame|(Hw & Hrows & Ht)].
  - by rewrite !Hsame.
  - rewrite Hrows.
    erewrite Dx12Facts.update_loop_rows by (exact Hw || reflexivity).
    unfold Dx12.with_table. simpl. by rewrite update_rows_again.
Qed.

(** X8. update_tasks_in_database only writes flags: the table keeps its
    rows, in their order and with their names, the two collections and the
    file are as before, and when the file does not open or the UPDATE does
    not prepare the store is untouched. *)
Theorem update_tasks_in_database_only_sets_flags (s : Dx12.State) :
  map Dx12.task_name
      (Dx12.stored_rows (Dx12.db (Dx12.update_tasks_in_database s))) =
  map Dx12.task_name (Dx12.stored_rows (Dx12.db s)) ∧
  Dx12.tasks (Dx12.update_tasks_in_database s) = Dx12.tasks s ∧
  Dx12.finished_tasks (Dx12.update_tasks_in_database s) =
  Dx12.finished_tasks s ∧
  Dx12.can_open (Dx12.db (Dx12.update_tasks_in_database s)) =
  Dx12.can_open (Dx12.db s) ∧
  (Dx12.sqlite3_open (Dx12.db s) ≠ SQLITE_OK ∨
   Dx12.sqlite3_prepare_v2 (Dx12.db s) ≠ SQLITE_OK →
   Dx12.db (Dx12.update_tasks_in_database s) = Dx12.db s).
Proof.
  destruct (Dx12Facts.update_tasks_in_database_tasks s) as [Ht Hf].
  assert (Dx12.db (Dx12.update_tasks_in_database s) = Dx12.db s ∨
          ∃ rows, Dx12.can_open (Dx12.db s) = true ∧
                  Dx12.table (Dx12.db s) = Some rows ∧
                  Dx12.db (Dx12.update_tasks_in_database s) =
                  Dx12.with_table (Dx12.db s)
                    (Dx12.update_rows (Dx12.tasks s) rows)) as Hcases.
  { destruct (Dx12.can_open (Dx12.db s)) eqn:Hc; cycle 1.
    { left. unfold Dx12.update_tasks_in_database, Dx12.sqlite3_open.
      by rewrite Hc. }
    rewrite (Dx12Facts.update_tasks_in_database_open _ Hc).
    destruct (Dx12Facts.update_loop_cases (Dx12.tasks s) (Dx12.db s))
      as [Hsame|(Hw & Hrows & Htb)]; [by left|].
    right. by exists (Dx12.stored_rows (Dx12.db s)). }
  split_and!; [|done..| |].
  - destruct Hcases as [->|(rows & _ & Htb & ->)]; [done|].
    unfold Dx12.stored_rows at 2. rewrite Htb. simpl.
    apply update_rows_names.
  - destruct Hcases as [->|(rows & _ & _ & ->)]; done.
  - intros Hfail.
    destruct Hcases as [->|(rows & Hc & Htb & _)]; [done|].
    unfold Dx12.sqlite3_open, Dx12.sqlite3_prepare_v2 in Hfail.
    rewrite Hc, Htb in Hfail. by destruct Hfail.
Qed.

Lemma update_tasks_in_database_only_sets_flags_witness :
  Dx12.db (Dx12.update_tasks_in_database Scenario.locked_session) =
  Dx12.db Scenario.locked_session.
Proof.
  apply (update_tasks_in_database_only_sets_flags Scenario.locked_session).
  left. vm_compute. discriminate.
Defined.

(** ** The loops of delete_tasks *)

Section EraseLoop.
Import Dx12 Dx12More.

Lemma skip_ind (P : list Task → Prop) :
  P [] →
  (∀ t rest, is_finished t = false → P rest → P (t :: rest)) →
  (∀ t, is_finished t = true → P [t]) →
  (∀ t u rest, is_finished t = true → P rest → P (t :: u :: rest)) →
  ∀ v, P v.
Proof.
  intros Hnil Hkeep Hlast Hskip v.
  assert (P v ∧ ∀ u, P (u :: v)) as [Hv _]; [|exact Hv].
  induction v as [|a v [IHv IHcons]].
  - split; [done|]. intros u.
    destruct (is_finished u) eqn:Hu; [by apply Hlast|by apply Hkeep].
  - split; [apply IHcons|]. intros u.
    destruct (is_finished u) eqn:Hu; [by apply Hskip|].
    apply Hkeep; [done|apply IHcons].
Qed.

(** The loop, standing at index [i], keeps what is before [i] and goes
    through the rest as [erase_skip] does. *)
Lemma erase_loop_skip (i : nat) (v : list Task) :
  erase_loop i v = take i v ++ erase_skip (drop i v).
Proof.
  funelim (erase_loop i v).
  - pose proof (take_drop_middle v i t Hi) as Hmid.
    pose proof (lookup_lt_Some _ _ _ Hi) as Hlt.
    rewrite (drop_S v t i Hi).
    destruct (is_finished t) eqn:Hfin; simpl; rewrite Hfin.
    + match goal with
      | IH : erase_loop (S i) (delete i v) = take _ _ ++ _ |- _ => rewrite IH
      end.
      rewrite delete_take_drop.
      destruct (drop (S i) v) as [|u rest] eqn:Hdrop.
      * rewrite app_nil_r, take_ge, drop_ge; rewrite ?length_take; try lia.
        by rewrite app_nil_r.
      * rewrite take_app, drop_app, length_take_le by lia.
        rewrite take_ge, drop_ge by (rewrite length_take; lia).
        replace (S i - i) with 1 by lia. simpl. by rewrite <- app_assoc.
    + match goal with
      | IH : erase_loop (S i) v = take _ _ ++ _ |- _ => rewrite IH
      end.
      rewrite (take_S_r v i t Hi), <- app_assoc. done.
  - pose proof (proj1 (lookup_ge_None v i) e) as Hge.
    by rewrite take_ge, drop_ge, app_nil_r.
Qed.

Lemma erase_skip_unchecked (v : list Task) :
  unchecked (erase_skip v) = unchecked v.
Proof.
  unfold unchecked.
  induction v as [| t rest Ht IH | t Ht | t u rest Ht IH] using skip_ind;
    simpl; rewrite ?Ht; simpl; rewrite ?Ht; simpl; rewrite ?IH; done.
Qed.

Lemma erase_skip_apart (v : list Task) :
  checked_apart v = true → erase_skip v = unchecked v.
Proof.
  unfold unchecked.
  induction v as [| t rest Ht IH | t Ht | t u rest Ht IH] using skip_ind;
    intros Hapart.
  - done.
  - simpl. rewrite Ht. simpl. f_equal. apply IH.
    destruct rest as [|u rest]; [done|].
    simpl in Hapart. by apply andb_true_iff in Hapart as [_ Hrest].
  - simpl. by rewrite Ht.
  - simpl in Hapart. rewrite Ht in Hapart. simpl in Hapart.
    apply andb_true_iff in Hapart as [Hu Hrest].
    apply negb_true_iff in Hu.
    simpl. rewrite Ht, Hu. simpl. f_equal. apply IH.
    destruct rest as [|w rest]; [done|].
    by apply andb_true_iff in Hrest as [_ Hrest].
Qed.

Lemma erase_skip_halves (v : list Task) :
  2 * checked_count (erase_skip v) ≤ checked_count v.
Proof.
  unfold checked_count.
  induction v as [| t rest Ht IH | t Ht | t u rest Ht IH] using skip_ind.
  - done.
  - simpl. rewrite Ht. simpl. rewrite ?Ht. exact IH.
  - simpl. rewrite Ht. simpl. lia.
  - simpl. rewrite Ht. simpl. destruct (is_finished u); simpl; lia.
Qed.

Lemma erase_skip_length (v : list Task) :
  length (erase_skip v) ≤ length v.
Proof.
  induction v as [| t rest Ht IH | t Ht | t u rest Ht IH] using skip_ind;
    simpl; rewrite ?Ht; simpl; lia.
Qed.

Lemma erase_skip_shorter (v : list Task) :
  0 < checked_count v → length (erase_skip v) < length v.
Proof.
  unfold checked_count.
  induction v as [| t rest Ht IH | t Ht | t u rest Ht IH] using skip_ind.
  - simpl. lia.
  - simpl. rewrite Ht. simpl. intros H. apply IH in H. lia.
  - simpl. rewrite Ht. simpl. lia.
  - intros _. simpl. rewrite Ht. simpl.
    pose proof (erase_skip_length rest). lia.
Qed.

Lemma checked_count_0 (v : list Task) :
  checked_count v = 0 ↔ Forall (fun t => is_finished t = false) v.
Proof.
  unfold checked_count. induction v as [|t v IH]; simpl.
  - split; [constructor|done].
  - rewrite Forall_cons. destruct (is_finished t); simpl.
    + split; [done|]. by intros [? _].
    + split; [intros H; split; [done|by apply IH]|].
      intros [_ H]. by apply IH.
Qed.

Lemma delete_tasks_tasks (s : State) :
  tasks (delete_tasks s) = erase_loop 0 (tasks s).
Proof.
  unfold delete_tasks. simpl.
  by destruct (Dx12Facts.update_tasks_in_database_tasks s) as [-> _].
Qed.

Lemma delete_tasks_iter_tasks (n : nat) (s : State) :
  tasks (press_delete_times n s) = Nat.iter n (erase_loop 0) (tasks s).
Proof.
  unfold press_delete_times. induction n as [|n IH]; [done|].
  change (Nat.iter (S n) delete_tasks s)
    with (delete_tasks (Nat.iter n delete_tasks s)).
  by rewrite delete_tasks_tasks, IH.
Qed.

Lemma erase_loop_iter_count (n : nat) (v : list Task) :
  2 ^ n * checked_count (Nat.iter n (erase_loop 0) v) ≤ checked_count v.
Proof.
  induction n as [|n IH].
  - simpl. lia.
  - change (Nat.iter (S n) (erase_loop 0) v)
      with (erase_loop 0 (Nat.iter n (erase_loop 0) v)).
    rewrite erase_loop_skip.
    change (take 0 (Nat.iter n (erase_loop 0) v) ++
            erase_skip (drop 0 (Nat.iter n (erase_loop 0) v)))
      with (erase_skip (Nat.iter n (erase_loop 0) v)).
    pose proof (erase_skip_halves (Nat.iter n (erase_loop 0) v)) as Hhalf.
    pose proof (Nat.mul_le_mono_l _ _ (2 ^ n) Hhalf) as Hmul.
    rewrite Nat.pow_succ_r'. lia.
Qed.

End EraseLoop.

Section EraseIterLoop.
Import Glfw GlfwMain.

Lemma erase_iter_loop_filter (i : nat) (v : list Task) :
  erase_iter_loop i v = take i v ++ unchecked (drop i v).
Proof.
  funelim (erase_iter_loop i v).
  - pose proof (lookup_lt_Some _ _ _ Hi) as Hlt.
    rewrite (drop_S v t i Hi). unfold unchecked. simpl.
    destruct (is_finished t) eqn:Hfin; simpl.
    + match goal with
      | IH : erase_iter_loop i (delete i v) = take _ _ ++ _ |- _ => rewrite IH
      end.
      rewrite delete_take_drop.
      rewrite take_app_length', drop_app_length'
        by (rewrite length_take; lia).
      done.
    + match goal with
      | IH : erase_iter_loop (S i) v = take _ _ ++ _ |- _ => rewrite IH
      end.
      rewrite (take_S_r v i t Hi), <- app_assoc. done.
  - pose proof (proj1 (lookup_ge_None v i) e) as Hge.
    by rewrite take_ge, drop_ge, app_nil_r.
Qed.

End EraseIterLoop.

(** X9. delete_tasks never drops an unchecked task, in either front end:
    the unchecked tasks after the call are the unchecked tasks before it,
    in the same order.  In the GLFW front end they are all that is left:
    the active collection after the call is the unchecked tasks of the
    collection before. *)
Theorem delete_tasks_keeps_unchecked (s : Dx12.State) (g : Glfw.State) :
  Dx12More.unchecked (Dx12.tasks (Dx12.delete_tasks s)) =
  Dx12More.unchecked (Dx12.tasks s) ∧
  Glfw.tasks (Glfw.delete_tasks g) = GlfwMain.unchecked (Glfw.tasks g).
Proof.
  split.
  - unfold Dx12.delete_tasks. simpl.
    destruct (Dx12Facts.update_tasks_in_database_tasks s) as [-> _].
    rewrite erase_loop_skip. simpl. apply erase_skip_unchecked.
  - unfold Glfw.delete_tasks. simpl.
    rewrite GlfwFacts.glfw_update_tasks_in_database_tasks.
    by rewrite erase_iter_loop_filter.
Qed.

(** X10. In src/main.cpp, when no checked task stands right after another
    checked task, delete_tasks removes every checked task: the active
    collection after the call is the unchecked tasks of the collection
    before. *)
Theorem delete_tasks_checked_apart (s : Dx12.State) :
  Dx12More.checked_apart (Dx12.tasks s) = true →
  Dx12.tasks (Dx12.delete_tasks s) = Dx12More.unchecked (Dx12.tasks s) ∧
  Forall (fun t => Dx12.is_finished t = false)
         (Dx12.tasks (Dx12.delete_tasks s)).
Proof.
  intros Hapart.
  assert (Dx12.tasks (Dx12.delete_tasks s) =
          Dx12More.unchecked (Dx12.tasks s)) as ->.
  { unfold Dx12.delete_tasks. simpl.
    destruct (Dx12Facts.update_tasks_in_database_tasks s) as [-> _].
    rewrite erase_loop_skip. simpl. by apply erase_skip_apart. }
  split; [done|].
  apply Forall_forall. intros t Ht%list_elem_of_In.
  apply List.filter_In in Ht as [_ Ht]. by apply negb_true_iff in Ht.
Qed.

Lemma delete_tasks_checked_apart_witness :
  Dx12.tasks
    (Dx12.delete_tasks
       {| Dx12.tasks := [Dx12.mkTask "a" true; Dx12.mkTask "b" false;
                         Dx12.mkTask "c" true];
          Dx12.finished_tasks := []; Dx12.db := Scenario.a_then_b |}) =
  [Dx12.mkTask "b" false].
Proof.
  apply (delete_tasks_checked_apart
    {| Dx12.tasks := [Dx12.mkTask "a" true; Dx12.mkTask "b" false;
                      Dx12.mkTask "c" true];
       Dx12.finished_tasks := []; Dx12.db := Scenario.a_then_b |}).
  reflexivity.
Defined.

(** X11. In src/main.cpp one press of the delete button removes at least
    half of the checked tasks: twice the number of checked tasks left is
    at most the number there was; the first checked task of the vector
    always goes, so a press with a checked task present shortens the
    vector. *)
Theorem delete_tasks_removes_half (s : Dx12.State) :
  2 * Dx12More.checked_count (Dx12.tasks (Dx12.delete_tasks s)) ≤
  Dx12More.checked_count (Dx12.tasks s) ∧
  (0 < Dx12More.checked_count (Dx12.tasks s) →
   length (Dx12.tasks (Dx12.delete_tasks s)) < length (Dx12.tasks s)).
Proof.
  assert (Dx12.tasks (Dx12.delete_tasks s) =
          Dx12More.erase_skip (Dx12.tasks s)) as ->.
  { unfold Dx12.delete_tasks. simpl.
    destruct (Dx12Facts.update_tasks_in_database_tasks s) as [-> _].
    by rewrite erase_loop_skip. }
  split; [apply erase_skip_halves|apply erase_skip_shorter].
Qed.

Lemma delete_tasks_removes_half_witness :
  length (Dx12.tasks
            (Dx12.delete_tasks
               {| Dx12.tasks := [Dx12.mkTask "a" true; Dx12.mkTask "b" true];
                  Dx12.finished_tasks := [];
                  Dx12.db := Scenario.a_then_b |})) < 2.
Proof.
  apply (delete_tasks_removes_half
    {| Dx12.tasks := [Dx12.mkTask "a" true; Dx12.mkTask "b" true];
       Dx12.finished_tasks := []; Dx12.db := Scenario.a_then_b |}).
  vm_compute. lia.
Defined.

(** X12. In src/main.cpp pressing the delete button again and again clears
    the checked tasks: after [n] presses in a row, with fewer than 2^n
    checked tasks at the start, no checked task is left in the active
    collection. *)
Theorem delete_tasks_repeated (n : nat) (s : Dx12.State) :
  Dx12More.checked_count (Dx12.tasks s) < 2 ^ n →
  Forall (fun t => Dx12.is_finished t = false)
         (Dx12.tasks (Dx12More.press_delete_times n s)).
Proof.
  intros Hcount. apply checked_count_0.
  rewrite delete_tasks_iter_tasks.
  pose proof (erase_loop_iter_count n (Dx12.tasks s)) as Hn.
  destruct (Dx12More.checked_count
              (Nat.iter n (Dx12.erase_loop 0) (Dx12.tasks s))); [done|].
  nia.
Qed.

Lemma delete_tasks_repeated_witness :
  Forall (fun t => Dx12.is_finished t = false)
    (Dx12.tasks
       (Dx12More.press_delete_times 2
          {| Dx12.tasks := [Dx12.mkTask "a" true; Dx12.mkTask "b" true];
             Dx12.finished_tasks := []; Dx12.db := Scenario.a_then_b |})).
Proof.
  apply (delete_tasks_repeated 2
    {| Dx12.tasks := [Dx12.mkTask "a" true; Dx12.mkTask "b" true];
       Dx12.finished_tasks := []; Dx12.db := Scenario.a_then_b |}).
  vm_compute. lia.
Defined.

(** ** The checkboxes of render_task_list *)

Section AlterLoop.

Context {A : Type} (g : nat → A → A).

(** A loop that rewrites the element at each index of a range. *)
Lemma foldl_alter_lookup (v : list A) (a n j : nat) :
  foldl (fun v i => alter (g i) i v) v (seq a n) !! j =
  if bool_decide (a ≤ j < a + n) then g j <$> v !! j else v !! j.
Proof.
  revert v a. induction n as [|n IH]; intros v a; simpl.
  - rewrite bool_decide_eq_false_2 by lia. done.
  - rewrite IH.
    destruct (decide (a = j)) as [->|Hne].
    + rewrite list_lookup_alter_eq.
      rewrite bool_decide_eq_false_2, bool_decide_eq_true_2 by lia. done.
    + rewrite list_lookup_alter_ne by done.
      destruct (decide (a ≤ j < a + S n)).
      * rewrite !bool_decide_eq_true_2 by lia. done.
      * rewrite !bool_decide_eq_false_2 by lia. done.
Qed.

Lemma foldl_alter_imap (v : list A) :
  foldl (fun v i => alter (g i) i v) v (seq 0 (length v)) = imap g v.
Proof.
  apply list_eq. intros j.
  rewrite foldl_alter_lookup, list_lookup_imap.
  destruct (decide (j < length v)).
  - rewrite bool_decide_eq_true_2 by lia. done.
  - rewrite bool_decide_eq_false_2 by lia.
    rewrite lookup_ge_None_2 by lia. done.
Qed.

End AlterLoop.

Lemma foldl_pointwise {A B} (f1 f2 : A → B → A) (a : A) (l : list B) :
  (∀ x y, f1 x y = f2 x y) → foldl f1 a l = foldl f2 a l.
Proof.
  intros Heq. revert a. induction l as [|y l IH]; intros a; simpl; [done|].
  by rewrite Heq, IH.
Qed.

Lemma dx12_render_row_alter (pressed : nat → bool) (v : list Dx12.Task)
    (i : nat) :
  Dx12.render_row pressed v i =
  alter (fun t => Dx12.mkTask (Dx12.name t)
                    (xorb (pressed i) (Dx12.is_finished t))) i v.
Proof.
  unfold Dx12.render_row, Dx12.Checkbox, Dx12.toggle.
  apply list_eq. intros j.
  destruct (v !! i) as [t|] eqn:Hi.
  - destruct (pressed i) eqn:Hp.
    + destruct (decide (i = j)) as [<-|Hne].
      * rewrite !list_lookup_alter_eq, Hi. done.
      * by rewrite !list_lookup_alter_ne.
    + destruct (decide (i = j)) as [<-|Hne].
      * rewrite list_lookup_alter_eq, Hi. simpl. by destruct t.
      * by rewrite list_lookup_alter_ne.
  - destruct (decide (i = j)) as [<-|Hne].
    + by rewrite list_lookup_alter_eq, Hi.
    + by rewrite list_lookup_alter_ne.
Qed.

Lemma glfw_render_row_alter (pressed : nat → bool) (v : list Glfw.Task)
    (i : nat) :
  GlfwMain.render_row pressed v i =
  alter (fun t => Glfw.mkTask (Glfw.name t)
                    (xorb (pressed i) (Glfw.is_finished t))
                    (Glfw.time_added t)) i v.
Proof.
  unfold GlfwMain.render_row, Dx12.Checkbox, Glfw.toggle.
  apply list_eq. intros j.
  destruct (v !! i) as [t|] eqn:Hi.
  - destruct (pressed i) eqn:Hp.
    + destruct (decide (i = j)) as [<-|Hne].
      * rewrite !list_lookup_alter_eq, Hi. done.
      * by rewrite !list_lookup_alter_ne.
    + destruct (decide (i = j)) as [<-|Hne].
      * rewrite list_lookup_alter_eq, Hi. simpl. by destruct t.
      * by rewrite list_lookup_alter_ne.
  - destruct (decide (i = j)) as [<-|Hne].
    + by rewrite list_lookup_alter_eq, Hi.
    + by rewrite list_lookup_alter_ne.
Qed.

Lemma dx12_render_flips (pressed : nat → bool) (s : Dx12.State) :
  Dx12.tasks (Dx12.render_task_list pressed s) =
  Dx12More.flip_pressed pressed (Dx12.tasks s).
Proof.
  unfold Dx12.render_task_list, Dx12More.flip_pressed. simpl.
  rewrite <- foldl_alter_imap. apply foldl_pointwise.
  apply dx12_render_row_alter.
Qed.

Lemma glfw_render_flips (pressed : nat → bool) (g : Glfw.State) :
  Glfw.tasks (GlfwMain.render_task_list pressed g) =
  GlfwMain.flip_pressed pressed (Glfw.tasks g).
Proof.
  unfold GlfwMain.render_task_list, GlfwMain.flip_pressed. simpl.
  rewrite <- foldl_alter_imap. apply foldl_pointwise.
  apply glfw_render_row_alter.
Qed.

(** X13. One pass of render_task_list flips the flag of exactly the rows
    whose checkbox was pressed and leaves every name, the order and the
    length of the vector as they were; with no box pressed nothing changes,
    and the same boxes pressed in two frames in a row put every flag back.
    Both front ends. *)
Theorem render_task_list_flips_pressed (pressed : nat → bool)
    (s : Dx12.State) (g : Glfw.State) :
  (Dx12.tasks (Dx12.render_task_list pressed s) =
   imap (fun i t => Dx12.mkTask (Dx12.name t)
                      (xorb (pressed i) (Dx12.is_finished t)))
        (Dx12.tasks s) ∧
   Dx12.tasks (Dx12.render_task_list (fun _ => false) s) = Dx12.tasks s ∧
   Dx12.tasks (Dx12.render_task_list pressed
                 (Dx12.render_task_list pressed s)) = Dx12.tasks s) ∧
  (Glfw.tasks (GlfwMain.render_task_list pressed g) =
   imap (fun i t => Glfw.mkTask (Glfw.name t)
                      (xorb (pressed i) (Glfw.is_finished t))
                      (Glfw.time_added t))
        (Glfw.tasks g) ∧
   Glfw.tasks (GlfwMain.render_task_list (fun _ => false) g) = Glfw.tasks g ∧
   Glfw.tasks (GlfwMain.render_task_list pressed
                 (GlfwMain.render_task_list pressed g)) = Glfw.tasks g).
Proof.
  split; split_and!.
  - apply dx12_render_flips.
  - rewrite dx12_render_flips. unfold Dx12More.flip_pressed.
    apply list_eq. intros j. rewrite list_lookup_imap.
    destruct (Dx12.tasks s !! j) as [[n b]|]; done.
  - rewrite !dx12_render_flips. unfold Dx12More.flip_pressed.
    apply list_eq. intros j. rewrite !list_lookup_imap.
    destruct (Dx12.tasks s !! j) as [[n b]|]; simpl; [|done].
    by destruct (pressed j), b.
  - apply glfw_render_flips.
  - rewrite glfw_render_flips. unfold GlfwMain.flip_pressed.
    apply list_eq. intros j. rewrite list_lookup_imap.
    destruct (Glfw.tasks g !! j) as [[n b tm]|]; done.
  - rewrite !glfw_render_flips. unfold GlfwMain.flip_pressed.
    apply list_eq. intros j. rewrite !list_lookup_imap.
    destruct (Glfw.tasks g !! j) as [[n b tm]|]; simpl; [|done].
    by destruct (pressed j), b.
Qed.

(** ** The main loop of src/main.cpp *)

(** X14. In every state the program reaches (through frames whose added
    text has no quote character) the finished collection is what
    get_finished_tasks reads from the store at that moment, or it is empty,
    a clear having emptied it; whenever the file can be written it is what
    the store holds.  Every task in it has is_finished = true. *)
Theorem finished_collection_mirrors_store
    (sql_other : string → Dx12.Store → rc * Dx12.Store) (s : Dx12.State) :
  Dx12.reachable sql_other s →
  (Dx12.finished_tasks s = Dx12.get_finished_tasks (Dx12.db s) ∨
   Dx12.finished_tasks s = []) ∧
  (Dx12.writable (Dx12.db s) = true →
   Dx12.finished_tasks s = Dx12.get_finished_tasks (Dx12.db s)) ∧
  Forall (fun t => Dx12.is_finished t = true) (Dx12.finished_tasks s).
Proof.
  intros [Hs Hw]%Dx12Facts.reachable_in_step. split_and!; [exact Hs|exact Hw|].
  destruct Hs as [Hs|Hs]; rewrite Hs; [|constructor].
  apply get_finished_tasks_all_finished.
Qed.

Lemma finished_collection_mirrors_store_witness :
  Dx12.finished_tasks
    (Dx12.frame Dx12.sql_rejected (Dx12.startup Scenario.milk_and_bill)
       (Dx12.press_add "Call mom")) =
  Dx12.get_finished_tasks
    (Dx12.db (Dx12.frame Dx12.sql_rejected
                (Dx12.startup Scenario.milk_and_bill)
                (Dx12.press_add "Call mom"))).
Proof.
  apply (finished_collection_mirrors_store Dx12.sql_rejected).
  - apply Dx12.reachable_frame; [apply Dx12.reachable_startup|].
    intros _. reflexivity.
  - reflexivity.
Defined.

Section Frames.
Import Dx12 Dx12More.

Variable sql_other : string → Store → rc * Store.

Lemma named_frame (s : State) (inp : Input) :
  named (tasks s) → named (tasks (frame sql_other s inp)).
Proof.
  intros Hs. unfold frame.
  set (s0 := {| tasks := tasks s; finished_tasks := finished_tasks s;
                db := create_database_and_table (db s) |}).
  set (s1 := render_task_list (checkbox_pressed inp) s0).
  assert (named (tasks s1)) as H1.
  { unfold named. apply (Dx12Facts.names_differ_fmap EmptyString).
    unfold s1. rewrite Dx12Facts.render_task_list_names.
    by apply (Dx12Facts.names_differ_fmap EmptyString). }
  set (s2 := if delete_pressed inp then delete_tasks s1 else s1).
  assert (named (tasks s2)) as H2.
  { unfold s2. destruct (delete_pressed inp); [|done].
    rewrite delete_tasks_tasks.
    eapply Dx12Facts.Forall_sublist_of;
      [apply Dx12Facts.erase_loop_sublist|done]. }
  set (s3 := if add_pressed inp then _ else s2).
  assert (named (tasks s3)) as H3.
  { unfold s3. destruct (add_pressed inp); [|done].
    destruct (0 <? String.length (task_input inp)) eqn:Hlen; [|done].
    assert (task_input inp ≠ EmptyString) as Hne.
    { intros Heq. rewrite Heq in Hlen. done. }
    destruct (Dx12Facts.add_task_tasks sql_other _ s2 Hne) as [-> _].
    apply Forall_app. split; [done|]. by apply Forall_singleton. }
  by destruct (clear_pressed inp).
Qed.

End Frames.

(** X15. No task with an empty name ever enters the active collection: when
    the rows of the table all have a name at the start, every active task
    has one after any frames, whatever is typed, pressed or stored. *)
Theorem no_unnamed_task
    (sql_other : string → Dx12.Store → rc * Dx12.Store)
    (st : Dx12.Store) (inps : list Dx12.Input) :
  Forall (fun r => Dx12.task_name r ≠ EmptyString) (Dx12.stored_rows st) →
  Forall (fun t => Dx12.name t ≠ EmptyString)
         (Dx12.tasks (Dx12.run sql_other (Dx12.startup st) inps)).
Proof.
  intros Hrows.
  assert (Dx12More.named (Dx12.tasks (Dx12.startup st))) as Hstart.
  { unfold Dx12.startup, Dx12.load_tasks_from_database. simpl.
    destruct (Dx12.sqlite3_open st); try constructor.
    destruct (Dx12.sqlite3_prepare_v2 st); try constructor.
    simpl. apply Forall_forall.
    intros t (r & -> & [Hr _]%elem_of_select_active)%list_elem_of_fmap.
    simpl. rewrite Forall_forall in Hrows. by apply Hrows. }
  unfold Dx12.run. revert Hstart. generalize (Dx12.startup st).
  induction inps as [|inp inps IH]; intros s Hs; simpl; [done|].
  apply IH. by apply named_frame.
Qed.

Lemma no_unnamed_task_witness :
  Forall (fun t => Dx12.name t ≠ EmptyString)
    (Dx12.tasks (Dx12.run Dx12.sql_rejected
                   (Dx12.startup Scenario.milk_and_bill)
                   [Dx12.press_add ""; Dx12.press_add "Call mom"])).
Proof.
  apply (no_unnamed_task Dx12.sql_rejected Scenario.milk_and_bill).
  repeat constructor; discriminate.
Defined.

(** X16. A frame in which the user does nothing leaves both collections and
    every stored row as they were; all it can do is make the table, and a
    second such frame changes nothing more. *)
Theorem idle_frame_changes_nothing
    (sql_other : string → Dx12.Store → rc * Dx12.Store) (s : Dx12.State) :
  Dx12.tasks (Dx12.frame sql_other s Dx12More.idle) = Dx12.tasks s ∧
  Dx12.finished_tasks (Dx12.frame sql_other s Dx12More.idle) =
  Dx12.finished_tasks s ∧
  Dx12.stored_rows (Dx12.db (Dx12.frame sql_other s Dx12More.idle)) =
  Dx12.stored_rows (Dx12.db s) ∧
  Dx12.frame sql_other (Dx12.frame sql_other s Dx12More.idle) Dx12More.idle =
  Dx12.frame sql_other s Dx12More.idle.
Proof.
  assert (∀ s', Dx12.frame sql_other s' Dx12More.idle =
                {| Dx12.tasks := Dx12.tasks s';
                   Dx12.finished_tasks := Dx12.finished_tasks s';
                   Dx12.db := Dx12.create_database_and_table (Dx12.db s') |})
    as Hidle.
  { intros s'. unfold Dx12.frame. simpl. unfold Dx12.render_task_list.
    f_equal. simpl.
    apply (Dx12Facts.render_task_list_idle (fun _ => false)
             {| Dx12.tasks := Dx12.tasks s';
                Dx12.finished_tasks := Dx12.finished_tasks s';
                Dx12.db := Dx12.create_database_and_table (Dx12.db s') |}).
    done. }
  rewrite !Hidle. simpl. split_and!; try done.
  - apply Dx12Facts.stored_rows_create.
  - f_equal. by destruct (Dx12.db s) as [[|] [|] [rows|]].
Qed.

(** ** add_task, load_tasks_from_database and clear_finished_tasks together *)

Section AddLoad.
Import Dx12 Dx12More.


Lemma string_app_assoc (s1 s2 s3 : string) :
  (s1 +:+ s2) +:+ s3 = s1 +:+ s2 +:+ s3.
Proof.
  induction s1 as [|c s1 IH]; [done|].
  change (String c ((s1 +:+ s2) +:+ s3) = String c (s1 +:+ s2 +:+ s3)).
  by rewrite IH.
Qed.

(** A text without quote followed by one quote: pasted into the INSERT
    statement it opens a literal that never closes. *)
Lemma scan_literal_open (t : string) :
  quote_free t = true →
  scan_literal (t +:+ String "'" insert_tail) = None.
Proof.
  induction t as [|c t IH]; simpl; intros Hq; [reflexivity|].
  apply andb_true_iff in Hq as [Hc Ht].
  apply negb_true_iff in Hc. rewrite Hc. by rewrite (IH Ht).
Qed.

End AddLoad.



(** X18. A name that ends with an apostrophe (and has no other) is
    shown but never stored: add_task appends the task to the active
    collection, the INSERT fails on a literal that never closes, and the
    store is left exactly as it was, so the task is gone at the next
    start. *)
Theorem add_task_trailing_quote
    (sql_other : string → Dx12.Store → rc * Dx12.Store)
    (t : string) (s : Dx12.State) :
  quote_free t = true →
  Dx12.tasks (Dx12.add_task sql_other (t +:+ "'") s) =
  Dx12.tasks s ++ [Dx12.mkTask (t +:+ "'") false] ∧
  Dx12.db (Dx12.add_task sql_other (t +:+ "'") s) = Dx12.db s ∧
  Dx12.tasks (Dx12.startup (Dx12.db (Dx12.add_task sql_other (t +:+ "'") s))) =
  Dx12.tasks (Dx12.startup (Dx12.db s)).
Proof.
  intros Hq.
  assert (t +:+ "'" ≠ EmptyString) as Hne by (by destruct t).
  destruct (Dx12Facts.add_task_tasks sql_other _ s Hne) as [Ht _].
  assert (Dx12.db (Dx12.add_task sql_other (t +:+ "'") s) = Dx12.db s) as Hdb.
  { unfold Dx12.add_task.
    destruct (String.eqb_spec (t +:+ "'") EmptyString) as [He|_]; [done|].
    simpl. destruct (Dx12.sqlite3_open (Dx12.db s)); try done.
    assert (Dx12.sqlite3_exec sql_other
              (Dx12.insert_head +:+ (t +:+ "'") +:+ Dx12.insert_tail)
              (Dx12.db s) = (SQLITE_ERROR, Dx12.db s)) as ->; [|done].
    unfold Dx12.sqlite3_exec.
    rewrite Dx12Facts.insert_is_not_commit, strip_prefix_app.
    rewrite string_app_assoc.
    change ("'" +:+ Dx12.insert_tail) with (String "'" Dx12.insert_tail).
    by rewrite (scan_literal_open _ Hq). }
  by rewrite Ht, Hdb.
Qed.

Lemma add_task_trailing_quote_witness :
  Dx12.db (Dx12.add_task Dx12.sql_rejected "the kids'"
             (Dx12.startup Scenario.milk_and_bill)) =
  Scenario.milk_and_bill.
Proof.
  apply (add_task_trailing_quote Dx12.sql_rejected "the kids"
           (Dx12.startup Scenario.milk_and_bill)).
  reflexivity.
Defined.

Lemma filter_again {A} (p : A → bool) (l : list A) :
  List.filter p (List.filter p l) = List.filter p l.
Proof.
  induction l as [|x l IH]; simpl; [done|].
  destruct (p x) eqn:Hx; simpl; [|done]. by rewrite Hx, IH.
Qed.

(** X19. Clearing the finished list can be repeated and does not reach the
    active side: a second clear changes nothing, and what
    load_tasks_from_database shows is the same before and after.  When the
    file can be written get_finished_tasks reads nothing back afterwards;
    when it cannot, the DELETE fails at its step, the store is as it was,
    and get_finished_tasks reads back what it read before the clear, while
    the finished collection in memory is empty. *)
Theorem clear_list_twice (s : Dx12.State) :
  Dx12.clear_list (Dx12.clear_list s) = Dx12.clear_list s ∧
  Dx12.tasks (Dx12.load_tasks_from_database (Dx12.clear_list s)) =
  Dx12.tasks (Dx12.load_tasks_from_database s) ∧
  (Dx12.writable (Dx12.db s) = true →
   Dx12.get_finished_tasks (Dx12.db (Dx12.clear_list s)) = []) ∧
  (Dx12.writable (Dx12.db s) = false →
   Dx12.finished_tasks (Dx12.clear_list s) = [] ∧
   Dx12.db (Dx12.clear_list s) = Dx12.db s ∧
   Dx12.get_finished_tasks (Dx12.db (Dx12.clear_list s)) =
   Dx12.get_finished_tasks (Dx12.db s)).
Proof.
  split_and!.
  - unfold Dx12.clear_list. simpl. f_equal.
    destruct (Dx12.db s) as [[|] [|] [rows|]]; try done.
    unfold Dx12.clear_finished_tasks, Dx12.sqlite3_open, Dx12.sqlite3_step,
      Dx12.sqlite3_prepare_v2, Dx12.stored_rows, Dx12.with_table. simpl.
    by rewrite filter_again.
  - unfold Dx12.load_tasks_from_database, Dx12.clear_list. simpl.
    destruct (Dx12.db s) as [[|] [|] [rows|]]; try done.
    simpl. f_equal.
    change (Dx12.stored_rows _) with
      (List.filter (fun r => negb (Dx12.task_finished r =? 1)%Z) rows) at 1.
    by rewrite Dx12Facts.select_active_cleared.
  - apply Dx12Facts.get_finished_tasks_clear.
  - intros Hw. simpl.
    by rewrite (Dx12Facts.clear_finished_tasks_read_only _ Hw).
Qed.

Lemma clear_list_twice_witness :
  Dx12.get_finished_tasks
    (Dx12.db (Dx12.clear_list (Dx12.startup Scenario.milk_and_bill))) = [] ∧
  Dx12.get_finished_tasks
    (Dx12.db (Dx12.clear_list
                (Dx12.startup Scenario.milk_and_bill_read_only))) =
  [Dx12.mkTask "Pay bill" true].
Proof.
  destruct (clear_list_twice (Dx12.startup Scenario.milk_and_bill))
    as (_ & _ & Hw & _).
  destruct (clear_list_twice (Dx12.startup Scenario.milk_and_bill_read_only))
    as (_ & _ & _ & Hro).
  split; [by apply Hw|].
  destruct (Hro eq_refl) as (_ & _ & ->). reflexivity.
Defined.

(** ** The GLFW front end: the time of a task, and the warning dialog *)

Section GlfwLoad.
Import Glfw GlfwMain.

Lemma glfw_load_open (g : State) :
  sqlite3_open (db g) = SQLITE_OK → sqlite3_prepare_v2 (db g) = SQLITE_OK →
  load_tasks_from_database g =
  {| tasks := map loaded (select_active (stored_rows (db g)));
     finished_tasks := finished_tasks g; db := db g |}.
Proof.
  intros Ho Hp. unfold load_tasks_from_database. by rewrite Ho, Hp.
Qed.

Lemma glfw_select_active_app (rows1 rows2 : list Row) :
  select_active (rows1 ++ rows2) = select_active rows1 ++ select_active rows2.
Proof. apply List.filter_app. Qed.

End GlfwLoad.

(** X20. In the GLFW front end, when the file can be written, a task added
    and then loaded comes back at the end of the active collection with its
    name, unchecked, and with the time read through a 32-bit int: the time
    itself while it fits in 32 bits, and 2^32 less (a negative time) from
    2^31 on.  When the file cannot be written the INSERT fails and the load
    shows what it showed before. *)
Theorem glfw_add_task_then_load
    (sql_other : string → Glfw.Store → rc * Glfw.Store)
    (now : Z) (task : string) (g : Glfw.State) :
  task ≠ EmptyString → quote_free task = true →
  (- 2 ^ 63 < now < 2 ^ 63)%Z →
  Glfw.sqlite3_open (Glfw.db g) = SQLITE_OK →
  Glfw.sqlite3_prepare_v2 (Glfw.db g) = SQLITE_OK →
  (Glfw.writable (Glfw.db g) = true →
   Glfw.tasks (Glfw.load_tasks_from_database
                 (Glfw.add_task sql_other now task g)) =
   Glfw.tasks (Glfw.load_tasks_from_database g) ++
   [Glfw.mkTask task false (column_int now)]) ∧
  (Glfw.writable (Glfw.db g) = false →
   Glfw.tasks (Glfw.load_tasks_from_database
                 (Glfw.add_task sql_other now task g)) =
   Glfw.tasks (Glfw.load_tasks_from_database g)) ∧
  ((- 2 ^ 31 <= now < 2 ^ 31)%Z → column_int now = now) ∧
  ((2 ^ 31 <= now < 2 ^ 32)%Z → column_int now = (now - 2 ^ 32)%Z).
Proof.
  intros Hne Hq Hnow Ho Hp.
  assert (Glfw.can_open (Glfw.db g) = true) as Hc.
  { unfold Glfw.sqlite3_open in Ho. by destruct (Glfw.can_open (Glfw.db g)). }
  pose proof (GlfwFacts.glfw_add_task_db_open sql_other now task g
                Hne Hq Hnow Hc) as Hdb.
  split_and!.
  - intros Hw. rewrite Hw in Hdb.
    rewrite (glfw_load_open g Ho Hp). simpl.
    unfold Glfw.sqlite3_prepare_v2, Glfw.stored_rows in *.
    destruct (Glfw.table (Glfw.db g)) as [rows|] eqn:Ht; [|done].
    unfold Glfw.load_tasks_from_database. rewrite Hdb.
    unfold Glfw.sqlite3_open, Glfw.sqlite3_prepare_v2, Glfw.stored_rows.
    simpl. rewrite Hc. simpl.
    rewrite glfw_select_active_app, map_app. done.
  - intros Hw. rewrite Hw in Hdb.
    assert (Glfw.db (Glfw.add_task sql_other now task g) = Glfw.db g) as Hsame
      by (rewrite Hdb; by destruct (Glfw.table (Glfw.db g))).
    rewrite (glfw_load_open g Ho Hp). simpl.
    unfold Glfw.load_tasks_from_database. rewrite Hsame, Ho, Hp. done.
  - apply column_int_small.
  - intros Hlate. unfold column_int.
    replace (now + 2 ^ 31)%Z with ((now - 2 ^ 31) + 1 * 2 ^ 32)%Z by lia.
    rewrite Z.mod_add by lia. rewrite Z.mod_small by lia. lia.
Qed.

Lemma glfw_add_task_then_load_witness :
  Glfw.tasks (Glfw.load_tasks_from_database
                (Glfw.add_task Glfw.sql_rejected 1700000120 "Call mom"
                   {| Glfw.tasks := []; Glfw.finished_tasks := [];
                      Glfw.db := Glfw.db Scenario.glfw_a_then_b |})) =
  [Glfw.mkTask "a" false 1700000000; Glfw.mkTask "b" false 1700000060;
   Glfw.mkTask "Call mom" false 1700000120] ∧
  Glfw.tasks (Glfw.load_tasks_from_database
                (Glfw.add_task Glfw.sql_rejected 1700000120 "Call mom"
                   {| Glfw.tasks := []; Glfw.finished_tasks := [];
                      Glfw.db := Scenario.glfw_read_only |})) =
  [Glfw.mkTask "b" false 1700000060].
Proof.
  destruct (glfw_add_task_then_load Glfw.sql_rejected 1700000120 "Call mom"
              {| Glfw.tasks := []; Glfw.finished_tasks := [];
                 Glfw.db := Glfw.db Scenario.glfw_a_then_b |})
    as (Hload & _ & _ & _);
    [discriminate|reflexivity|split; reflexivity|reflexivity|reflexivity|].
  destruct (glfw_add_task_then_load Glfw.sql_rejected 1700000120 "Call mom"
              {| Glfw.tasks := []; Glfw.finished_tasks := [];
                 Glfw.db := Scenario.glfw_read_only |})
    as (_ & Hro & _ & _);
    [discriminate|reflexivity|split; reflexivity|reflexivity|reflexivity|].
  split.
  - rewrite Hload; reflexivity.
  - rewrite Hro; reflexivity.
Defined.



(** ** The GLFW front end: delete_tasks against a reload *)

Section GlfwInStep.
Import Glfw GlfwMain.

Lemma glfw_with_table_same (st : Store) (rows : list Row) :
  table st = Some rows → with_table st rows = st.
Proof. destruct st as [c w tb]; simpl; intros ->; reflexivity. Qed.

Lemma glfw_update_loop_rows (ts : list Task) (st : Store) (rows : list Row) :
  writable st = true → table st = Some rows →
  update_loop ts st = with_table st (update_rows ts rows).
Proof.
  revert st rows. induction ts as [|t ts IH]; intros st rows Hw Ht; simpl.
  - symmetry. by apply glfw_with_table_same.
  - unfold sqlite3_prepare_v2, sqlite3_step, stored_rows. rewrite Ht, Hw.
    erewrite IH by (exact Hw || reflexivity). reflexivity.
Qed.

Lemma glfw_last_named_snoc (key : string) (ts : list Task) (t : Task) :
  last_named key (ts ++ [t]) =
  if String.eqb (name t) key then Some t else last_named key ts.
Proof. unfold last_named. by rewrite foldl_snoc. Qed.

Lemma glfw_final_row_name (ts : list Task) (r : Row) :
  task_name (final_row ts r) = task_name r.
Proof. unfold final_row. by destruct (last_named (task_name r) ts). Qed.

Lemma glfw_final_row_snoc (ts : list Task) (t : Task) (r : Row) :
  final_row (ts ++ [t]) r =
  if String.eqb (task_name r) (name t)
  then mkRow (task_name r) (flag_of t) (row_time_added r)
  else final_row ts r.
Proof.
  unfold final_row. rewrite glfw_last_named_snoc, String.eqb_sym.
  by destruct (String.eqb (task_name r) (name t)).
Qed.

Lemma glfw_final_row_time (ts : list Task) (r : Row) :
  row_time_added (final_row ts r) = row_time_added r.
Proof. unfold final_row. by destruct (last_named (task_name r) ts). Qed.

Lemma glfw_update_rows_final (ts : list Task) (rows : list Row) :
  update_rows ts rows = map (final_row ts) rows.
Proof.
  induction ts as [|t ts IH] using rev_ind.
  - unfold final_row. simpl. by rewrite map_id.
  - unfold update_rows in *. rewrite foldl_snoc, IH. unfold sql_update.
    rewrite map_map. apply map_ext. intros r.
    by rewrite glfw_final_row_name, glfw_final_row_time, glfw_final_row_snoc.
Qed.

Lemma glfw_last_named_later (key : string) (ts post : list Task) :
  Forall (fun a => name a ≠ key) post →
  last_named key (ts ++ post) = last_named key ts.
Proof.
  induction post as [|a post IH] using rev_ind; intros Hpost.
  - by rewrite app_nil_r.
  - apply Forall_app in Hpost as [Hpost Ha].
    rewrite Forall_singleton in Ha.
    rewrite app_assoc, glfw_last_named_snoc, (IH Hpost).
    by destruct (String.eqb_spec (name a) key).
Qed.

Lemma glfw_last_named_first (t : Task) (ts : list Task) :
  Forall (fun a => name a ≠ name t) ts →
  last_named (name t) (t :: ts) = Some t.
Proof.
  intros Hts.
  change (t :: ts) with ([t] ++ ts).
  rewrite (glfw_last_named_later (name t) [t] ts Hts).
  unfold last_named. simpl. by rewrite String.eqb_refl.
Qed.

Lemma glfw_last_named_other (key : string) (t : Task) (ts : list Task) :
  name t ≠ key → last_named key (t :: ts) = last_named key ts.
Proof.
  intros Hne. unfold last_named. simpl.
  by destruct (String.eqb_spec (name t) key).
Qed.

Lemma glfw_last_named_none (key : string) (ts : list Task) :
  Forall (fun a => name a ≠ key) ts → last_named key ts = None.
Proof.
  intros Hts. change ts with ([] ++ ts).
  by rewrite (glfw_last_named_later key [] ts Hts).
Qed.

(** The names of a vector that a load would show are names of rows. *)
Lemma names_in_rows (rows : list Row) (ts : list Task) :
  map loaded (select_active rows) = map uncheck ts →
  Forall (fun a => name a ∈ map task_name rows) ts.
Proof.
  intros Hstep. apply Forall_forall. intros a Ha.
  assert (uncheck a ∈ map uncheck ts) as Hin
    by (by apply (list_elem_of_fmap_2 uncheck)).
  rewrite <- Hstep in Hin.
  apply list_elem_of_fmap in Hin as (r & Heq & Hr).
  apply (f_equal name) in Heq. simpl in Heq. rewrite Heq.
  apply (list_elem_of_fmap_2 task_name).
  unfold select_active in Hr.
  apply list_elem_of_In, List.filter_In in Hr as [Hr _].
  by apply list_elem_of_In.
Qed.

Lemma in_step_after_updates (rows : list Row) (ts : list Task) :
  NoDup (map task_name rows) →
  map loaded (select_active rows) = map uncheck ts →
  map loaded (select_active (map (final_row ts) rows)) = unchecked ts.
Proof.
  revert ts. induction rows as [|r rows IH]; intros ts Hnodup Hstep.
  - destruct ts; [done|discriminate].
  - change (map task_name (r :: rows))
      with (task_name r :: map task_name rows) in Hnodup.
    apply NoDup_cons in Hnodup as [Hfresh Hnodup].
    unfold select_active in Hstep. simpl in Hstep.
    destruct (task_finished r =? 0)%Z eqn:Hflag.
    + destruct ts as [|t ts]; [discriminate|].
      simpl in Hstep. injection Hstep as Hname _ Htime Hrest.
      fold (select_active rows) in Hrest.
      assert (Forall (fun a => name a ≠ name t) ts) as Hothers.
      { eapply Forall_impl; [exact (names_in_rows rows ts Hrest)|].
        simpl. intros a Ha Heq. apply Hfresh. by rewrite Hname, <- Heq. }
      assert (map (final_row (t :: ts)) rows = map (final_row ts) rows)
        as Hrows.
      { apply map_ext_in. intros r' Hr'%list_elem_of_In.
        unfold final_row. rewrite glfw_last_named_other; [done|].
        intros Heq. apply Hfresh. rewrite Hname, Heq.
        by apply list_elem_of_fmap_2. }
      assert (final_row (t :: ts) r =
              mkRow (name t) (flag_of t) (row_time_added r)) as Hr.
      { unfold final_row.
        by rewrite Hname, (glfw_last_named_first t ts Hothers). }
      change (map (final_row (t :: ts)) (r :: rows))
        with (final_row (t :: ts) r :: map (final_row (t :: ts)) rows).
      rewrite Hrows, Hr.
      unfold select_active, unchecked, flag_of. simpl.
      destruct (is_finished t) eqn:Hfin; simpl.
      * apply (IH ts Hnodup Hrest).
      * f_equal; [|apply (IH ts Hnodup Hrest)].
        unfold loaded. simpl. rewrite Htime.
        destruct t as [n b tm]. simpl in *. by subst b.
    + fold (select_active rows) in Hstep.
      assert (final_row ts r = r) as Hr.
      { unfold final_row. rewrite glfw_last_named_none; [done|].
        eapply Forall_impl; [exact (names_in_rows rows ts Hstep)|].
        simpl. intros a Ha Heq. apply Hfresh. by rewrite <- Heq. }
      simpl. rewrite Hr. unfold select_active. simpl. rewrite Hflag.
      apply (IH ts Hnodup Hstep).
Qed.

End GlfwInStep.

(** X22. In the GLFW front end delete_tasks leaves memory and store in
    step when its updates go through: when the file opens and can be
    written, the table is there, no two rows bear the same name and the
    active collection is what a load would show (up to the checkboxes),
    then after delete_tasks a load gives back the very state delete_tasks
    left: the tasks still shown are the rows still active.  When the file
    cannot be written the first UPDATE fails, the store is as it was, and a
    load shows again what it showed before, the erased tasks included. *)
Theorem glfw_delete_tasks_then_load (g : Glfw.State) :
  Glfw.sqlite3_open (Glfw.db g) = SQLITE_OK →
  Glfw.sqlite3_prepare_v2 (Glfw.db g) = SQLITE_OK →
  NoDup (map Glfw.task_name (Glfw.stored_rows (Glfw.db g))) →
  Glfw.tasks (Glfw.load_tasks_from_database g) =
  map GlfwMain.uncheck (Glfw.tasks g) →
  (Glfw.writable (Glfw.db g) = true →
   Glfw.load_tasks_from_database (Glfw.delete_tasks g) =
   Glfw.delete_tasks g) ∧
  (Glfw.writable (Glfw.db g) = false →
   Glfw.db (Glfw.delete_tasks g) = Glfw.db g ∧
   Glfw.tasks (Glfw.delete_tasks g) = GlfwMain.unchecked (Glfw.tasks g) ∧
   Glfw.tasks (Glfw.load_tasks_from_database (Glfw.delete_tasks g)) =
   Glfw.tasks (Glfw.load_tasks_from_database g)).
Proof.
  intros Ho Hp Hnodup Hstep.
  assert (Glfw.table (Glfw.db g) = Some (Glfw.stored_rows (Glfw.db g))) as Ht.
  { unfold Glfw.sqlite3_prepare_v2, Glfw.stored_rows in *.
    by destruct (Glfw.table (Glfw.db g)). }
  split; intros Hw.
  - rewrite (glfw_load_open g Ho Hp) in Hstep. simpl in Hstep.
    assert (Glfw.delete_tasks g =
            {| Glfw.tasks := GlfwMain.unchecked (Glfw.tasks g);
               Glfw.finished_tasks :=
                 Glfw.get_finished_tasks
                   (Glfw.with_table (Glfw.db g)
                      (GlfwMain.update_rows (Glfw.tasks g)
                         (Glfw.stored_rows (Glfw.db g))));
               Glfw.db :=
                 Glfw.with_table (Glfw.db g)
                   (GlfwMain.update_rows (Glfw.tasks g)
                      (Glfw.stored_rows (Glfw.db g))) |}) as ->.
    { unfold Glfw.delete_tasks, Glfw.update_tasks_in_database.
      rewrite Ho. simpl.
      rewrite (glfw_update_loop_rows _ _ _ Hw Ht), erase_iter_loop_filter.
      done. }
    rewrite glfw_load_open; [|exact Ho|done]. simpl. f_equal.
    rewrite glfw_update_rows_final.
    by apply in_step_after_updates.
  - assert (Glfw.delete_tasks g =
            {| Glfw.tasks := GlfwMain.unchecked (Glfw.tasks g);
               Glfw.finished_tasks := Glfw.get_finished_tasks (Glfw.db g);
               Glfw.db := Glfw.db g |}) as ->.
    { unfold Glfw.delete_tasks, Glfw.update_tasks_in_database.
      rewrite Ho. simpl.
      assert (Glfw.update_loop (Glfw.tasks g) (Glfw.db g) = Glfw.db g) as ->.
      { destruct (Glfw.tasks g); simpl; [done|].
        unfold Glfw.sqlite3_step. by rewrite Hp, Hw. }
      by rewrite erase_iter_loop_filter. }
    split_and!; [done..|].
    rewrite !glfw_load_open by done. done.
Qed.

Lemma glfw_delete_tasks_then_load_witness :
  Glfw.load_tasks_from_database
    (Glfw.delete_tasks
       {| Glfw.tasks := [Glfw.mkTask "a" true 1700000000;
                         Glfw.mkTask "b" false 1700000060];
          Glfw.finished_tasks := [];
          Glfw.db := Glfw.db Scenario.glfw_a_then_b |}) =
  Glfw.delete_tasks
    {| Glfw.tasks := [Glfw.mkTask "a" true 1700000000;
                      Glfw.mkTask "b" false 1700000060];
       Glfw.finished_tasks := [];
       Glfw.db := Glfw.db Scenario.glfw_a_then_b |}.
Proof.
  apply (glfw_delete_tasks_then_load
    {| Glfw.tasks := [Glfw.mkTask "a" true 1700000000;
                      Glfw.mkTask "b" false 1700000060];
       Glfw.finished_tasks := [];
       Glfw.db := Glfw.db Scenario.glfw_a_then_b |});
    try reflexivity.
  simpl. apply NoDup_cons. split; [|apply NoDup_singleton].
  rewrite list_elem_of_singleton. discriminate.
Defined.

(** ** The two front ends side by side *)

Lemma filter_map_comm {A B} (f : A → B) (p : B → bool) (l : list A) :
  List.filter p (map f l) = map f (List.filter (fun x => p (f x)) l).
Proof.
  induction l as [|x l IH]; simpl; [done|].
  destruct (p (f x)); simpl; by rewrite IH.
Qed.

Lemma forget_imap (pressed : nat → bool) (v : list Glfw.Task) :
  map Forget.task (GlfwMain.flip_pressed pressed v) =
  Dx12More.flip_pressed pressed (map Forget.task v).
Proof.
  unfold GlfwMain.flip_pressed, Dx12More.flip_pressed.
  revert pressed. induction v as [|t v IH]; intros pressed; [done|].
  simpl. f_equal. apply (IH (pressed ∘ S)).
Qed.

(** X23. Apart from the time column the GLFW front end reads, draws and
    clears as src/main.cpp does: with time_added dropped from every task
    and row, load_tasks_from_database, get_finished_tasks, the checkbox
    pass of render_task_list, the clearing of the finished list and
    create_database_and_table of build.sh give what the functions of
    src/main.cpp give on the same names and flags. *)
Theorem glfw_agrees_with_main_cpp (pressed : nat → bool) (g : Glfw.State) :
  Forget.state (Glfw.load_tasks_from_database g) =
  Dx12.load_tasks_from_database (Forget.state g) ∧
  map Forget.task (Glfw.get_finished_tasks (Glfw.db g)) =
  Dx12.get_finished_tasks (Forget.store (Glfw.db g)) ∧
  Forget.state (GlfwMain.render_task_list pressed g) =
  Dx12.render_task_list pressed (Forget.state g) ∧
  Forget.state (GlfwMain.clear_list g) = Dx12.clear_list (Forget.state g) ∧
  Forget.store (GlfwMain.create_database_and_table (Glfw.db g)) =
  Dx12.create_database_and_table (Forget.store (Glfw.db g)).
Proof.
  destruct g as [ts fs [c w tb]]. split_and!.
  - unfold Glfw.load_tasks_from_database, Dx12.load_tasks_from_database,
      Forget.state, Forget.store, Glfw.sqlite3_open, Dx12.sqlite3_open,
      Glfw.sqlite3_prepare_v2, Dx12.sqlite3_prepare_v2. simpl.
    destruct c; [|done]. destruct tb as [rows|]; [|done]. simpl. f_equal.
    unfold Glfw.select_active, Dx12.select_active,
      Glfw.stored_rows, Dx12.stored_rows. cbn [Glfw.table Dx12.table].
    rewrite filter_map_comm, !map_map. done.
  - unfold Glfw.get_finished_tasks, Dx12.get_finished_tasks,
      Forget.store, Glfw.sqlite3_open, Dx12.sqlite3_open,
      Glfw.sqlite3_prepare_v2, Dx12.sqlite3_prepare_v2. simpl.
    destruct c; [|done]. destruct tb as [rows|]; [|done]. simpl.
    unfold Glfw.select_finished, Dx12.select_finished,
      Glfw.stored_rows, Dx12.stored_rows. cbn [Glfw.table Dx12.table].
    rewrite filter_map_comm, !map_map. done.
  - pose proof (glfw_render_flips pressed
                  (Glfw.mkState ts fs (Glfw.mkStore c w tb))) as Hg.
    pose proof (dx12_render_flips pressed
                  (Forget.state (Glfw.mkState ts fs (Glfw.mkStore c w tb))))
      as Hd.
    unfold Forget.state at 1. rewrite Hg. simpl.
    unfold Dx12.render_task_list in *. simpl in *. rewrite Hd.
    by rewrite forget_imap.
  - unfold GlfwMain.clear_list, Dx12.clear_list, Forget.state,
      GlfwMain.clear_finished_tasks, Dx12.clear_finished_tasks,
      Forget.store, Glfw.sqlite3_open, Dx12.sqlite3_open,
      Glfw.sqlite3_step, Dx12.sqlite3_step,
      Glfw.sqlite3_prepare_v2, Dx12.sqlite3_prepare_v2. simpl.
    destruct c; [|done]. destruct tb as [rows|]; [|done].
    destruct w; [|done].
    unfold Glfw.with_table, Dx12.with_table, Glfw.stored_rows,
      Dx12.stored_rows.
    cbn [Glfw.table Dx12.table Glfw.can_open Dx12.can_open
         Glfw.writable Dx12.writable option_map].
    by rewrite filter_map_comm.
  - by destruct c, w, tb.
Qed.

(** ** A session on a file that does not open *)

Section Unsaved.
Import Glfw GlfwMain.

Variable sql_other : string → Store → rc * Store.

Lemma unsaved_delete_tasks (g : State) :
  can_open (db g) = false → db (delete_tasks g) = db g.
Proof.
  intros Hc. unfold delete_tasks, update_tasks_in_database, sqlite3_open.
  by rewrite Hc.
Qed.

Lemma unsaved_add_task (now : Z) (task : string) (g : State) :
  can_open (db g) = false → db (add_task sql_other now task g) = db g.
Proof.
  intros Hc. unfold add_task, sqlite3_open. rewrite Hc.
  by destruct (negb (String.eqb task "")).
Qed.

Lemma unsaved_clear_list (g : State) :
  can_open (db g) = false → db (clear_list g) = db g.
Proof.
  intros Hc. unfold clear_list, clear_finished_tasks, sqlite3_open. simpl.
  by rewrite Hc.
Qed.

Lemma unsaved_frame (w : GlfwWarn.Session) (inp : GlfwWarn.Input) :
  can_open (db (GlfwWarn.state w)) = false →
  db (GlfwWarn.state (GlfwWarn.frame sql_other w inp)) =
  db (GlfwWarn.state w).
Proof.
  intros Hc. unfold GlfwWarn.frame. simpl.
  set (s1 := render_task_list (GlfwWarn.checkbox_pressed inp)
               (GlfwWarn.state w)).
  assert (db s1 = db (GlfwWarn.state w)) as H1 by done.
  set (s2 := if GlfwWarn.delete_pressed inp then delete_tasks s1 else s1).
  assert (db s2 = db (GlfwWarn.state w)) as H2.
  { subst s2. destruct (GlfwWarn.delete_pressed inp); [|done].
    rewrite unsaved_delete_tasks; [done|]. by rewrite H1. }
  set (s3 := if GlfwWarn.add_pressed inp
             then if (0 <? String.length (GlfwWarn.task_input inp))%nat
                  then add_task sql_other (GlfwWarn.now inp)
                         (GlfwWarn.task_input inp) s2
                  else s2
             else s2).
  assert (db s3 = db (GlfwWarn.state w)) as H3.
  { subst s3. destruct (GlfwWarn.add_pressed inp); [|done].
    destruct (0 <? String.length (GlfwWarn.task_input inp))%nat; [|done].
    rewrite unsaved_add_task; [done|]. by rewrite H2. }
  destruct (if GlfwWarn.show_pressed inp
            then negb (GlfwWarn.show_finished_list w)
            else GlfwWarn.show_finished_list w); [|done].
  destruct (GlfwWarn.clear_pressed inp); [|done].
  rewrite unsaved_clear_list; [done|]. by rewrite H3.
Qed.

Lemma unsaved_run (inps : list GlfwWarn.Input) (w : GlfwWarn.Session) :
  can_open (db (GlfwWarn.state w)) = false →
  db (GlfwWarn.state (GlfwWarn.run sql_other w inps)) =
  db (GlfwWarn.state w).
Proof.
  revert w. induction inps as [|inp inps IH]; intros w Hc; [done|].
  unfold GlfwWarn.run in *. simpl.
  rewrite IH.
  - by apply unsaved_frame.
  - by rewrite unsaved_frame.
Qed.

End Unsaved.

(** X24. What the warning dialog says is so: when the file does not open
    the session starts with both collections empty, and whatever the user
    adds, checks, deletes or clears afterwards, the store at the end is
    the store there was at the start; nothing of the session is saved. *)
Theorem warned_session_saves_nothing
    (sql_other : string → Glfw.Store → rc * Glfw.Store)
    (st : Glfw.Store) (inps : list GlfwWarn.Input) :
  Glfw.can_open st = false →
  Glfw.tasks (GlfwWarn.state (GlfwWarn.startup st)) = [] ∧
  Glfw.finished_tasks (GlfwWarn.state (GlfwWarn.startup st)) = [] ∧
  Glfw.db (GlfwWarn.state
             (GlfwWarn.run sql_other (GlfwWarn.startup st) inps)) = st.
Proof.
  intros Hc.
  assert (GlfwWarn.startup st =
          GlfwWarn.mkSession (Glfw.mkState [] [] st) false true) as ->.
  { destruct st as [c tb]. simpl in Hc. subst c. reflexivity. }
  split_and!; [done|done|].
  by rewrite unsaved_run.
Qed.

Lemma warned_session_saves_nothing_witness :
  Glfw.db (GlfwWarn.state
    (GlfwWarn.run Glfw.sql_rejected
       (GlfwWarn.startup (Glfw.db Scenario.glfw_locked_session))
       [GlfwWarn.mkInput (fun _ => false) false "milk" true 1700000000
          false false false;
        GlfwWarn.mkInput (fun _ => true) true "" false 1700000060
          true true true])) =
  Glfw.db Scenario.glfw_locked_session.
Proof.
  apply (warned_session_saves_nothing Glfw.sql_rejected
           (Glfw.db Scenario.glfw_locked_session)).
  reflexivity.
Defined.

End More.
